(** * Portfolio chat agent: query-intent and context-resolution core

    A shallow embedding of [src/portfolio_chat_agent.py] (class
    [PortfolioChatAgent]) and the properties its specification states of it.

    Text is modelled as [string] (a sequence of 8-bit characters); the
    character classes of Python's [str.lower], [str.strip], [\s], [\d],
    [\w] are the ASCII ones.  The database executor and the generative text
    capability are external collaborators: one turn receives their answers in
    a [World] record, and the database calls a turn makes are recorded as a
    list of [DbEvent]s. *)

From Stdlib Require Import String Ascii List Bool Arith NArith Lia.
From Stdlib Require Import DecimalString DecimalN.
Import ListNotations.
Open Scope string_scope.

(** ** Text primitives (Python [str] and [re] operations used by the agent) *)

Module Text.

Definition code (c : ascii) : nat := nat_of_ascii c.

Definition between (lo hi : nat) (c : ascii) : bool :=
  Nat.leb lo (code c) && Nat.leb (code c) hi.

(** [str.isspace] on ASCII: TAB..CR, FS..US and the blank. *)
Definition is_space (c : ascii) : bool :=
  between 9 13 c || between 28 32 c.

Definition is_digit (c : ascii) : bool := between 48 57 c.

Definition is_upper (c : ascii) : bool := between 65 90 c.

(** [\w] on ASCII: letters, digits and the underscore. *)
Definition is_word (c : ascii) : bool :=
  between 97 122 c || is_upper c || is_digit c || Nat.eqb (code c) 95.

Definition lower_ascii (c : ascii) : ascii :=
  if is_upper c then ascii_of_nat (code c + 32) else c.

Definition upper_ascii (c : ascii) : ascii :=
  if between 97 122 c then ascii_of_nat (code c - 32) else c.

Fixpoint map_string (f : ascii -> ascii) (s : string) : string :=
  match s with
  | EmptyString => EmptyString
  | String c r => String (f c) (map_string f r)
  end.

(** [s.lower()] and [s.upper()] *)
Definition lower : string -> string := map_string lower_ascii.
Definition upper : string -> string := map_string upper_ascii.

Definition is_empty (s : string) : bool :=
  match s with EmptyString => true | String _ _ => false end.

(** [s[n:]] *)
Fixpoint drop (n : nat) (s : string) : string :=
  match n, s with
  | O, _ => s
  | S _, EmptyString => EmptyString
  | S k, String _ r => drop k r
  end.

(** [s[:n]] *)
Fixpoint take (n : nat) (s : string) : string :=
  match n, s with
  | O, _ => EmptyString
  | S _, EmptyString => EmptyString
  | S k, String c r => String c (take k r)
  end.

(** Length of the longest prefix of [s] whose characters all satisfy [p]. *)
Fixpoint span_len (p : ascii -> bool) (s : string) : nat :=
  match s with
  | EmptyString => 0
  | String c r => if p c then S (span_len p r) else 0
  end.

(** [s.lstrip(chars)], [s.rstrip(chars)], [s.strip(chars)] for a character
    class [p]. *)
Fixpoint lstrip_by (p : ascii -> bool) (s : string) : string :=
  match s with
  | EmptyString => EmptyString
  | String c r => if p c then lstrip_by p r else s
  end.

Fixpoint rstrip_by (p : ascii -> bool) (s : string) : string :=
  match s with
  | EmptyString => EmptyString
  | String c r =>
      let r' := rstrip_by p r in
      if p c && is_empty r' then EmptyString else String c r'
  end.

Definition strip_by (p : ascii -> bool) (s : string) : string :=
  rstrip_by p (lstrip_by p s).

(** [s.strip()] *)
Definition strip : string -> string := strip_by is_space.

(** [s.strip(c)] for a one-character argument *)
Definition strip_char (c : ascii) : string -> string :=
  strip_by (Ascii.eqb c).

(** [sub in s] *)
Fixpoint contains (sub s : string) : bool :=
  String.prefix sub s ||
  match s with
  | EmptyString => false
  | String _ r => contains sub r
  end.

(** [any(k in s for k in ks)] *)
Definition contains_any (ks : list string) (s : string) : bool :=
  existsb (fun k => contains k s) ks.

(** [s.replace(old, new)] for a non-empty [old]: occurrences are found left
    to right and do not overlap.  [skip] counts the characters of an
    occurrence that are still to be passed over. *)
Fixpoint replace_from (skip : nat) (old new s : string) : string :=
  match s with
  | EmptyString => EmptyString
  | String c r =>
      match skip with
      | S k => replace_from k old new r
      | O =>
          if String.prefix old s
          then new ++ replace_from (String.length old - 1) old new r
          else String c (replace_from 0 old new r)
      end
  end.

Definition replace (old new s : string) : string := replace_from 0 old new s.

(** [s.split(sep)[0]] for a one-character separator *)
Fixpoint split_head (sep : ascii) (s : string) : string :=
  match s with
  | EmptyString => EmptyString
  | String c r => if Ascii.eqb c sep then EmptyString else String c (split_head sep r)
  end.

(** [len(s.split())]: the number of maximal runs of non-blank characters *)
Fixpoint count_tokens_from (in_token : bool) (s : string) : nat :=
  match s with
  | EmptyString => 0
  | String c r =>
      if is_space c then count_tokens_from false r
      else (if in_token then 0 else 1) + count_tokens_from true r
  end.

Definition count_tokens : string -> nat := count_tokens_from false.

(** [re.search(r'\bPAT\b', s)] for a literal [pat] that starts and ends with
    a word character: an occurrence of [pat] not preceded and not followed by
    a word character. *)
Definition word_ahead (s : string) : bool :=
  match s with EmptyString => false | String c _ => is_word c end.

Fixpoint search_word_from (prev_word : bool) (pat s : string) : bool :=
  (negb prev_word && String.prefix pat s
     && negb (word_ahead (drop (String.length pat) s)))
  || match s with
     | EmptyString => false
     | String c r => search_word_from (is_word c) pat r
     end.

Definition search_word : string -> string -> bool := search_word_from false.

(** [int(digits)] and [str(n)] *)
Definition digit_value (c : ascii) : N := N.of_nat (code c - 48).

Fixpoint int_of_digits (acc : N) (s : string) : N :=
  match s with
  | EmptyString => acc
  | String c r => int_of_digits (acc * 10 + digit_value c) r
  end.

Definition str_of_N (n : N) : string := NilZero.string_of_uint (N.to_uint n).
Definition str_of_nat (n : nat) : string := str_of_N (N.of_nat n).

(** [re.findall(r'\d+', s)], first element when there is one *)
Fixpoint first_digits (s : string) : option string :=
  match s with
  | EmptyString => None
  | String c r =>
      if is_digit c then Some (take (span_len is_digit s) s) else first_digits r
  end.

(** [int(digits)] as CPython runs it: a text of more than 4300 digits (the
    default of [sys.set_int_max_str_digits]) raises [ValueError], here [None]. *)
Definition max_str_digits : nat := 4300.

Definition int_of_text (s : string) : option N :=
  if Nat.ltb max_str_digits (String.length s) then None
  else Some (int_of_digits 0 s).

(** The text is plain ASCII.  On such a text the character classes above are
    the ones Python uses; beyond ASCII Python's [lower], [strip], [\s], [\d]
    and [\w] know more characters than these do. *)
Definition is_ascii_char (c : ascii) : bool := Nat.ltb (code c) 128.

Fixpoint is_ascii (s : string) : bool :=
  match s with
  | EmptyString => true
  | String c r => is_ascii_char c && is_ascii r
  end.

(** [sep.join(xs)] *)
Fixpoint join (sep : string) (xs : list string) : string :=
  match xs with
  | [] => ""
  | [x] => x
  | x :: r => x ++ sep ++ join sep r
  end.

End Text.

Import Text.

(** ** Spelling Normalizer *)

(** [self.spelling_corrections], in insertion order. *)
Definition spelling_corrections : list (string * string) :=
  [ ("liost", "list"); ("lsit", "list"); ("lst", "list");
    ("porofolio", "portfolio"); ("portoflio", "portfolio"); ("portifolio", "portfolio");
    ("propertys", "properties"); ("proprties", "properties");
    ("aseets", "assets"); ("asets", "assets");
    ("reveune", "revenue"); ("revenu", "revenue");
    ("expnese", "expense"); ("expenes", "expenses");
    ("hopsitality", "hospitality"); ("hopitality", "hospitality");
    ("multifamly", "multifamily"); ("multifmaily", "multifamily");
    ("qaurter", "quarter"); ("quater", "quarter");
    ("finacial", "financial"); ("fianncial", "financial") ].

(** [_correct_spelling]: each pair is applied in turn to the running text. *)
Definition _correct_spelling (text : string) : string :=
  fold_left (fun corrected '(mistake, correction) => replace mistake correction corrected)
            spelling_corrections text.

(** ** Query Limit Editor *)

(** A match of [TOP\s+\d+\s*] (ignoring case) at the head of [s]: its length.
    The three quantifiers are greedy and the classes that follow one another are
    disjoint, so the longest runs are the only match. *)
Definition match_top_limit (s : string) : option nat :=
  match s with
  | String t (String o (String p r)) =>
      if Ascii.eqb (lower_ascii t) "t" && Ascii.eqb (lower_ascii o) "o"
         && Ascii.eqb (lower_ascii p) "p"
      then
        let w := span_len is_space r in
        let d := span_len is_digit (drop w r) in
        if Nat.leb 1 w && Nat.leb 1 d
        then Some (3 + w + d + span_len is_space (drop d (drop w r)))
        else None
      else None
  | _ => None
  end.

(** [re.sub(r'TOP\s+\d+\s*', '', s, flags=re.IGNORECASE)] *)
Fixpoint sub_top_limit (skip : nat) (s : string) : string :=
  match s with
  | EmptyString => EmptyString
  | String c r =>
      match skip with
      | S k => sub_top_limit k r
      | O =>
          match match_top_limit s with
          | Some n => sub_top_limit (n - 1) r
          | None => String c (sub_top_limit 0 r)
          end
      end
  end.

Definition _remove_query_limits (sql_query : string) : string :=
  strip (sub_top_limit 0 sql_query).

(** The text holds a row-limiting clause: [TOP\s+\d+\s*] matches somewhere. *)
Fixpoint has_top_limit (s : string) : bool :=
  (match match_top_limit s with Some _ => true | None => false end)
  || match s with
     | EmptyString => false
     | String _ r => has_top_limit r
     end.

(** ** Data model *)

Inductive Role := user | assistant.

(** One entry of [self.conversation_memory]. *)
Record ConversationTurn := { role : Role; content : string }.

(** A [pandas.DataFrame] as far as the agent looks at it: named columns and
    rows in the order the database returned them; [len(df)] is the number of
    rows and [pd.DataFrame()] has neither. *)
Record DataFrame := { columns : list string; rows : list (list string) }.

Definition df_len (df : DataFrame) : nat := List.length (rows df).
Definition empty_frame : DataFrame := {| columns := []; rows := [] |}.

(** The session fields of [PortfolioChatAgent]. *)
Record ConversationState := {
  conversation_memory : list ConversationTurn;
  last_query_result : option DataFrame;
  last_sql_query : option string;
  last_question : option string
}.

(** [__init__] *)
Definition init_state : ConversationState :=
  {| conversation_memory := []; last_query_result := None;
     last_sql_query := None; last_question := None |}.

(** The dictionary [chat] returns; a key that is not set is [None]. *)
Record ResponseEnvelope := {
  success : bool;
  error : option string;
  question : option string;
  sql_query : option string;
  data : option DataFrame;
  insights : option string;
  row_count : option nat;
  conversation_type : option string
}.

Definition failure (msg : string) : ResponseEnvelope :=
  {| success := false; error := Some msg; question := None; sql_query := None;
     data := None; insights := None; row_count := None; conversation_type := None |}.

Definition answer (q sql : string) (df : DataFrame) (text : string) (n : nat)
    (kind : option string) : ResponseEnvelope :=
  {| success := true; error := None; question := Some q; sql_query := Some sql;
     data := Some df; insights := Some text; row_count := Some n;
     conversation_type := kind |}.

(** ** External collaborators *)

(** [self.db.execute_query(sql)]: a frame, the failure sentinel [None], or an
    exception. *)
Inductive ExecResult :=
| Rows (df : DataFrame)
| Sentinel
| Raised (msg : string).

(** [openai.ChatCompletion.create(...)]: the message text, or an exception. *)
Inductive Reply :=
| Text (body : string)
| Failed (msg : string).

(** What the SQL Resolver hands to the generative capability besides the fixed
    rule texts and the schema description: the question, the modification
    bundle (previous full query, base query without its ORDER BY) when the
    question is context dependent, and the recent conversation (the last four
    memory entries, each content cut to 100 characters). *)
Record DelegationRequest := {
  dr_question : string;
  dr_previous_context : option (string * string);
  dr_conversation_context : list (Role * string)
}.

(** The collaborators' answers during one turn. *)
Record World := {
  db_connect : bool;
  db_execute_query : string -> ExecResult;
  llm_generate_sql : DelegationRequest -> Reply;
  llm_business_insights : string -> DataFrame -> Reply;
  llm_general_answer : string -> Reply
}.

(** The database calls of a turn, in order. *)
Inductive DbEvent :=
| Connect (ok : bool)
| Execute (sql : string)
| Close.

(** The connection is open after the events [evs] when it was [was_open] before:
    a successful [connect] opens it, [close] closes it. *)
Definition connection_open_after (was_open : bool) (evs : list DbEvent) : bool :=
  fold_left (fun o e => match e with
                        | Connect ok => ok || o
                        | Execute _ => o
                        | Close => false
                        end) evs was_open.

(** Python truthiness of an optional text: [None] and the empty text are false. *)
Definition truthy (o : option string) : bool :=
  match o with
  | Some s => negb (is_empty s)
  | None => false
  end.

(** [l[-n:]] *)
Definition last_n {A} (n : nat) (l : list A) : list A :=
  skipn (List.length l - n) l.

(** ** Intent Classifier *)

Definition followup_keywords : list string :=
  [ "show all"; "all results"; "show everything"; "full table"; "complete list";
    "expand"; "show more"; "show rest"; "all rows"; "entire list"; "full results";
    "without limit"; "show complete"; "all data"; "everything" ].

Definition _is_followup_request (question : string) : bool :=
  contains_any followup_keywords (lower question).

Definition casual_patterns : list string :=
  [ "hey"; "hi"; "hello"; "good morning"; "good afternoon";
    "thanks"; "thank you"; "bye"; "goodbye" ].

Definition casual_data_keywords : list string :=
  [ "show"; "list"; "get"; "find"; "properties"; "noi"; "data"; "assets" ].

Definition _is_casual_conversation (question : string) : bool :=
  let question_lower := strip (lower question) in
  Nat.leb (count_tokens question_lower) 5
  && existsb (fun pattern =>
                search_word pattern question_lower
                && negb (contains_any casual_data_keywords question_lower))
             casual_patterns.

Definition data_keywords : list string :=
  [ "show"; "list"; "get"; "find"; "what"; "which"; "how many"; "how much"; "total"; "sum"; "average";
    "properties"; "assets"; "funds"; "investors"; "revenue"; "noi"; "debt"; "equity";
    "performance"; "returns"; "cities"; "table"; "column"; "schema"; "irr"; "moic";
    "occupancy"; "expenses"; "cash flow"; "sale"; "acquisition"; "lender"; "borrower";
    "count"; "calculate"; "analyze"; "compare"; "filter"; "report"; "portfolio"; "summary";
    "q1"; "q2"; "q3"; "q4"; "quarter"; "year"; "ytd"; "monthly"; "detail"; "overview";
    "company"; "our"; "performance"; "metrics"; "kpi"; "dashboard";
    "above"; "previous"; "again"; "date"; "format"; "display"; "results"; "values" ].

Definition _needs_database_query (st : ConversationState) (question : string) : bool :=
  let question_lower := lower question in
  if truthy (last_sql_query st)
     && contains_any ["above"; "previous"; "again"; "results"; "date"] question_lower
  then true
  else contains_any data_keywords question_lower.

Inductive Intent := FollowUp | Casual | DatabaseQuery | General.

(** The order of the tests in [chat]. *)
Definition classify (st : ConversationState) (corrected_question : string) : Intent :=
  if _is_followup_request corrected_question then FollowUp
  else if _is_casual_conversation corrected_question then Casual
  else if _needs_database_query st corrected_question then DatabaseQuery
  else General.

(** ** SQL Resolver *)

(** The canned queries of [_generate_intelligent_sql], character for character. *)
Definition sql_top_performing (limit : string) : string :=
  "SELECT TOP " ++ limit ++ " 
                        a.AssetName,
                        a.PropertyType,
                        a.City,
                        a.State,
                        SUM(ao.NetOperatingIncome) as TotalNOI,
                        SUM(ao.TotalRevenue) as TotalRevenue,
                        AVG(ao.PhysicalOccupancy) as AvgOccupancy
                    FROM FactAssetOperations ao
                    JOIN DimAsset a ON ao.AssetID = a.AssetID
                    GROUP BY a.AssetName, a.PropertyType, a.City, a.State
                    ORDER BY TotalNOI DESC".

Definition sql_fund_equity : string :=
  "SELECT 
                        f.FundName,
                        SUM(fi.InvestmentAmount) as TotalEquity
                    FROM FactInvestment fi
                    JOIN DimFund f ON fi.FundID = f.FundID
                    GROUP BY f.FundName
                    ORDER BY TotalEquity DESC".

Definition sql_all_properties : string :=
  "SELECT 
                        AssetName,
                        PropertyType,
                        City,
                        State,
                        AssetStatus
                    FROM DimAsset 
                    ORDER BY AssetName".

Definition sql_cities : string :=
  "SELECT DISTINCT 
                        City,
                        State,
                        COUNT(*) as PropertyCount
                    FROM DimAsset 
                    WHERE City IS NOT NULL
                    GROUP BY City, State 
                    ORDER BY PropertyCount DESC".

Definition sql_total_debt : string :=
  "SELECT 
                        SUM(CurrentBalance) as TotalDebt,
                        COUNT(*) as NumberOfLoans,
                        AVG(InterestRate) as AvgInterestRate
                    FROM FactDebtIssued 
                    WHERE DebtStatus = 'Current'".

Definition sql_multifamily : string :=
  "SELECT 
                        AssetID,
                        AssetName,
                        PropertyType,
                        City,
                        State,
                        NumberOfUnits,
                        TotalSquareFootage,
                        AssetStatus
                    FROM DimAsset 
                    WHERE PropertyType = 'Multifamily' 
                    ORDER BY AssetName".

Definition sql_hospitality : string :=
  "SELECT 
                        AssetID,
                        AssetName,
                        PropertyType,
                        PropertySubType,
                        City,
                        State,
                        NumberOfUnits,
                        AssetStatus
                    FROM DimAsset 
                    WHERE PropertyType = 'Hospitality' 
                    ORDER BY AssetName".

Definition sql_property_types : string :=
  "SELECT DISTINCT 
                        PropertyType,
                        COUNT(*) as Count
                    FROM DimAsset
                    GROUP BY PropertyType
                    ORDER BY Count DESC".

Definition sql_high_noi : string :=
  "SELECT TOP 10
                        a.AssetName,
                        a.PropertyType,
                        ao.NetOperatingIncome as NOI,
                        ao.ReportingDateKey
                    FROM FactAssetOperations ao
                    JOIN DimAsset a ON ao.AssetID = a.AssetID
                    WHERE ao.NetOperatingIncome IS NOT NULL
                    ORDER BY ao.NetOperatingIncome DESC".

Definition sql_acquisition_price : string :=
  "SELECT 
                        AssetName,
                        PropertyType,
                        City,
                        State,
                        AcquisitionPrice,
                        AcquisitionDate
                    FROM DimAsset
                    WHERE AcquisitionPrice IS NOT NULL
                    ORDER BY AcquisitionPrice DESC".

(** [msg.get('content', '').lower().strip() == question.lower().strip()] *)
Definition normalized (s : string) : string := strip (lower s).

Definition same_question (msg : ConversationTurn) (question : string) : bool :=
  match role msg with
  | user => String.eqb (normalized (content msg)) (normalized question)
  | assistant => false
  end.

(** The loop that sets [is_edited_query]: a user entry among the last five
    memory entries equals the question up to case and surrounding blanks. *)
Definition is_edited_query (memory : list ConversationTurn) (question : string) : bool :=
  existsb (fun msg => same_question msg question) (last_n 5 memory).

(** Where the [if]/[elif] chain over the canned queries ends: with the
    [return] of a canned query, without one (a compound property-type request,
    or no pattern), or in the exception [int(numbers[0])] raises. *)
Inductive TemplateChoice :=
| Canned (sql : string)
| NoTemplate
| TemplateError.

Definition match_template (question : string) : TemplateChoice :=
  let question_lower := lower question in
  let has k := contains k question_lower in
  if has "top" && has "performing" then
    match first_digits question with
    | Some numbers0 =>
        match int_of_text numbers0 with
        | Some limit => Canned (sql_top_performing (str_of_N limit))
        | None => TemplateError
        end
    | None => Canned (sql_top_performing (str_of_N 5))
    end
  else if has "equity" && has "fund" then Canned sql_fund_equity
  else if has "all properties" || has "show properties" || has "show me all properties"
  then Canned sql_all_properties
  else if has "cities" || has "what cities" then Canned sql_cities
  else if has "total debt" || has "outstanding debt" then Canned sql_total_debt
  else if has "multifamily" then Canned sql_multifamily
  else if has "hospitality" then Canned sql_hospitality
  else if has "property types" || has "what property types" then Canned sql_property_types
  else if (has "noi" || has "net operating income") && (has "high" || has "top")
  then Canned sql_high_noi
  else if has "acquisition" && has "price" then Canned sql_acquisition_price
  else if (has "commercial" && has "hospitality")
          || (has "all" && contains_any ["commercial"; "hospitality"; "multifamily"; "retail"]
                                        question_lower)
  then NoTemplate
  else NoTemplate.

(** [s[:m.start()]] for the match [m] of
    [re.search(r'ORDER BY.*$', s, re.IGNORECASE | re.DOTALL)]: the text before
    the first ORDER BY, or the whole text when there is none. *)
Fixpoint before_order_by (s : string) : string :=
  match s with
  | EmptyString => EmptyString
  | String c r =>
      if String.prefix "order by" (lower s) then EmptyString
      else String c (before_order_by r)
  end.

(** The base query of the modification bundle: the stored query, cut before
    its first ORDER BY and stripped when it has one, as it is otherwise. *)
Definition base_query (last : string) : string :=
  if contains "order by" (lower last) then strip (before_order_by last) else last.

Definition is_modification_request (question : string) : bool :=
  let q := lower question in
  contains_any ["above"; "previous"; "those"; "these"; "last"; "again"] q
  || contains_any ["date"; "format"; "display"; "show as date"; "readable"] q
  || contains_any ["with respect to"; "sort by"; "order by"; "based on"] q.

Definition build_delegation (st : ConversationState) (question : string) : DelegationRequest :=
  {| dr_question := question;
     dr_previous_context :=
       match last_sql_query st with
       | Some last =>
           if negb (is_empty last) && is_modification_request question
           then Some (last, base_query last)
           else None
       | None => None
       end;
     dr_conversation_context :=
       if Nat.ltb 1 (List.length (conversation_memory st))
       then map (fun msg => (role msg, take 100 (content msg)))
                (last_n 4 (conversation_memory st))
       else [] |}.

Inductive Resolution :=
| SqlText (sql : string)
| Delegation (request : DelegationRequest)
| ResolutionError.

(** The decision of [_generate_intelligent_sql]: a canned query, the request
    for the generative capability, or the exception of the template chain. *)
Definition resolve (st : ConversationState) (question : string) : Resolution :=
  if is_edited_query (conversation_memory st) question
  then Delegation (build_delegation st question)
  else match match_template question with
       | Canned sql => SqlText sql
       | NoTemplate => Delegation (build_delegation st question)
       | TemplateError => ResolutionError
       end.

(** [_generate_intelligent_sql]: [None] when the template chain or the
    generative call raised. *)
Definition _generate_intelligent_sql (st : ConversationState) (w : World)
    (question : string) : option string :=
  match resolve st question with
  | SqlText sql => Some sql
  | Delegation request =>
      match llm_generate_sql w request with
      | Text body => Some (strip body)
      | Failed _ => None
      end
  | ResolutionError => None
  end.

Definition double_quote : ascii := ascii_of_nat 34.

Definition _clean_sql_query (sql_query : string) : string :=
  let s := strip (replace "```" "" (replace "```sql" "" sql_query)) in
  let s := strip_char "'" (strip_char double_quote s) in
  let s := if contains ";" s then split_head ";" s else s in
  strip s.

(** ** Insight Summarizer *)

Definition _generate_business_insights (w : World) (question : string)
    (data_df : DataFrame) : string :=
  if Nat.eqb (df_len data_df) 0 then "No data found for your query."
  else match llm_business_insights w question data_df with
       | Text body => strip body
       | Failed _ =>
           "Query executed successfully and returned " ++ str_of_nat (df_len data_df)
           ++ " results with columns: " ++ join ", " (columns data_df)
       end.

(** ** Query Orchestrator *)

(** What a handler yields: the envelope, the session state it leaves, and the
    database calls it made. *)
Definition Outcome : Type := ResponseEnvelope * ConversationState * list DbEvent.

Definition str_of_option (o : option string) : string :=
  match o with Some s => s | None => "None" end.

Definition no_query_needed : string := "No database query needed".

Definition no_previous_query : string :=
  "No previous query to expand. Please ask a specific question first.".

Definition no_data_found : string :=
  "No data found for your query. The database might not contain the specific information you're looking for, or the filters might be too restrictive.".

Definition _handle_followup_request (st : ConversationState) (w : World)
    (question : string) : Outcome :=
  match last_sql_query st with
  | Some last =>
      if is_empty last then (failure no_previous_query, st, [])
      else
        let expanded_query := _remove_query_limits last in
        if negb (db_connect w)
        then (failure "Database connection failed", st, [Connect false])
        else
          match db_execute_query w expanded_query with
          | Sentinel =>
              (failure "Expanded query execution failed", st,
               [Connect true; Execute expanded_query])
          | Raised e =>
              (failure ("Follow-up request failed: " ++ e), st,
               [Connect true; Execute expanded_query; Close])
          | Rows query_df =>
              let st' := {| conversation_memory := conversation_memory st;
                            last_query_result := Some query_df;
                            last_sql_query := Some expanded_query;
                            last_question := last_question st |} in
              let n := df_len query_df in
              let insights :=
                "Showing complete results for your previous question: '"
                ++ str_of_option (last_question st) ++ "'. Found "
                ++ str_of_nat n ++ " total rows." in
              let insights :=
                if Nat.ltb 50 n
                then insights ++ "

📊 **Large Dataset**: This query returned " ++ str_of_nat n
                     ++ " rows. All data is included below."
                else insights in
              (answer question expanded_query query_df insights n None, st',
               [Connect true; Execute expanded_query; Close])
          end
  | None => (failure no_previous_query, st, [])
  end.

Section Casual.

(** [CASUAL_RESPONSES] of [config.system_prompts], which is not part of the
    sources at hand: a table from a key phrase to the canned reply. *)
Variable CASUAL_RESPONSES : list (string * string).

Definition _handle_casual_conversation (st : ConversationState)
    (question : string) : Outcome :=
  let question_lower := strip (lower question) in
  let reply :=
    match find (fun '(key, _) => contains key question_lower) CASUAL_RESPONSES with
    | Some (_, response) => response
    | None => "Hello! I'm your Real Estate AI assistant. I can help you analyze your portfolio of 12 properties across different sectors. What would you like to know?"
    end in
  (answer question no_query_needed empty_frame reply 0 (Some "casual"), st, []).

End Casual.

Definition _handle_general_question (st : ConversationState) (w : World)
    (question : string) : Outcome :=
  match llm_general_answer w question with
  | Text body =>
      (answer question no_query_needed empty_frame (strip body) 0 (Some "general"),
       st, [])
  | Failed e => (failure ("Could not process general question: " ++ e), st, [])
  end.

Definition _handle_database_query (st : ConversationState) (w : World)
    (question : string) : Outcome :=
  if negb (db_connect w)
  then (failure "Database connection failed", st, [Connect false])
  else
    let generation_failed :=
      (failure "Could not generate a valid SQL query for this question. Try being more specific.",
       st, [Connect true]) in
    match _generate_intelligent_sql st w question with
    | None => generation_failed
    | Some sql =>
        if is_empty sql || contains "not possible" (lower sql) then generation_failed
        else
          let cleaned_query := _clean_sql_query sql in
          match db_execute_query w cleaned_query with
          | Sentinel =>
              (failure "Query execution failed. Please check the query syntax.", st,
               [Connect true; Execute cleaned_query])
          | Raised e =>
              (failure ("Database query failed: " ++ e), st,
               [Connect true; Execute cleaned_query; Close])
          | Rows query_df =>
              let n := df_len query_df in
              let stored := if Nat.ltb 0 n then query_df else empty_frame in
              if Nat.eqb n 0
              then
                (answer question cleaned_query empty_frame no_data_found 0 None,
                 {| conversation_memory := conversation_memory st;
                    last_query_result := Some stored;
                    last_sql_query := Some cleaned_query;
                    last_question := last_question st |},
                 [Connect true; Execute cleaned_query])
              else
                let insights := _generate_business_insights w question query_df in
                let insights :=
                  if contains "TOP " (upper cleaned_query) && Nat.leb 10 n
                  then insights ++ "

💡 **Tip**: This shows the first " ++ str_of_nat n
                       ++ " results. Ask 'show all results' to see everything!"
                  else insights in
                (answer question cleaned_query query_df insights n None,
                 {| conversation_memory :=
                      conversation_memory st ++
                      [ {| role := assistant;
                           content := "Query returned " ++ str_of_nat n
                                      ++ " results from " ++ question |} ];
                    last_query_result := Some stored;
                    last_sql_query := Some cleaned_query;
                    last_question := last_question st |},
                 [Connect true; Execute cleaned_query; Close])
          end
    end.

Section Session.

Variable CASUAL_RESPONSES : list (string * string).

(** The part of [chat] before the dispatch: the raw question is stored and
    the corrected one is appended to the memory. *)
Definition record_question (st : ConversationState) (user_question : string)
    : ConversationState :=
  {| conversation_memory :=
       conversation_memory st ++
       [ {| role := user; content := _correct_spelling user_question |} ];
     last_query_result := last_query_result st;
     last_sql_query := last_sql_query st;
     last_question := Some user_question |}.

Definition chat (st : ConversationState) (w : World) (user_question : string)
    : Outcome :=
  let corrected_question := _correct_spelling user_question in
  let st1 := record_question st user_question in
  match classify st1 corrected_question with
  | FollowUp => _handle_followup_request st1 w corrected_question
  | Casual => _handle_casual_conversation CASUAL_RESPONSES st1 corrected_question
  | DatabaseQuery => _handle_database_query st1 w corrected_question
  | General => _handle_general_question st1 w corrected_question
  end.

(** The intent under which [chat] handles a question in state [st]. *)
Definition intent_of (st : ConversationState) (user_question : string) : Intent :=
  classify (record_question st user_question) (_correct_spelling user_question).

(** What is remembered of one finished turn. *)
Record TurnRecord := {
  turn_intent : Intent;
  turn_response : ResponseEnvelope;
  turn_events : list DbEvent
}.

(** A session: the turns are served one after the other, each with the
    collaborators' answers for that turn; the records come oldest first. *)
Fixpoint run (st : ConversationState) (turns : list (World * string))
    : ConversationState * list TurnRecord :=
  match turns with
  | [] => (st, [])
  | (w, q) :: rest =>
      let '(r, st', evs) := chat st w q in
      let '(st_end, history) := run st' rest in
      (st_end,
       {| turn_intent := intent_of st q; turn_response := r; turn_events := evs |}
       :: history)
  end.

End Session.

(** The database-query turn [t] executed its query successfully. *)
Definition executed_query (t : TurnRecord) : bool :=
  match turn_intent t with
  | DatabaseQuery => success (turn_response t)
  | _ => false
  end.

(** Whether the most recent database-query turn of a history (oldest first)
    executed successfully; [None] when there was no such turn. *)
Definition most_recent_query_ok (history : list TurnRecord) : option bool :=
  match filter (fun t => match turn_intent t with DatabaseQuery => true | _ => false end)
               (rev history) with
  | t :: _ => Some (success (turn_response t))
  | [] => None
  end.

(** ** Predicates used to state properties *)



(** [a] is [b] with some characters deleted. *)
Inductive Subseq : string -> string -> Prop :=
| Subseq_nil : Subseq "" ""
| Subseq_skip (c : ascii) (a b : string) : Subseq a b -> Subseq a (String c b)
| Subseq_keep (c : ascii) (a b : string) : Subseq a b -> Subseq (String c a) (String c b).

(** The shape of what a handler returns for the state [st1] it is given and
    the question [cq] it is asked: the envelope is a complete answer about
    [cq] or a bare failure; the state differs from [st1] at most by one
    assistant entry at the end of the memory and by the stored query and
    result, which are set together and only by a query the turn executed;
    the database calls are a connect, at most one query, and a close. *)
Definition turn_shape (st1 : ConversationState) (cq : string) (o : Outcome) : Prop :=
  let '(r, st', evs) := o in
  ((success r = true /\ error r = None /\ question r = Some cq
    /\ exists sql df text,
         sql_query r = Some sql /\ data r = Some df /\ insights r = Some text
         /\ row_count r = Some (df_len df))
   \/ exists msg, r = failure msg)
  /\ last_question st' = last_question st1
  /\ (exists extra,
         conversation_memory st' = (conversation_memory st1 ++ extra)%list
         /\ (extra = [] \/ exists text, extra = [ {| role := assistant; content := text |} ]))
  /\ ((last_sql_query st' = last_sql_query st1
       /\ last_query_result st' = last_query_result st1)
      \/ exists sql df,
           In (Execute sql) evs /\ last_sql_query st' = Some sql
           /\ last_query_result st' = Some df)
  /\ (evs = [] \/ evs = [Connect false] \/ evs = [Connect true]
      \/ exists sql, evs = [Connect true; Execute sql]
                     \/ evs = [Connect true; Execute sql; Close]).

(** ** Sample collaborators *)

Module Samples.

Definition one_asset : DataFrame :=
  {| columns := ["AssetName"]; rows := [["Harbor Point"]] |}.

Definition no_rows : DataFrame := {| columns := ["AssetName"]; rows := [] |}.

(** The generative capability answers every SQL request with [sql_text]; the
    executor answers every query with [result]. *)
Definition world (sql_text : Reply) (result : ExecResult) : World :=
  {| db_connect := true;
     db_execute_query := fun _ => result;
     llm_generate_sql := fun _ => sql_text;
     llm_business_insights := fun _ _ => Text "One asset is listed.";
     llm_general_answer := fun _ => Text "A cap rate is income over value." |}.

Definition select_assets : Reply := Text "SELECT AssetName FROM DimAsset".

Definition healthy : World := world select_assets (Rows one_asset).
Definition empty_result : World := world select_assets (Rows no_rows).
Definition failing_executor : World := world select_assets Sentinel.
Definition raising_executor : World := world select_assets (Raised "timeout").
Definition refusing : World := world (Text "That is not possible.") (Rows one_asset).
Definition silent : World := world (Failed "rate limit") (Rows one_asset).

(** A session in which one query has been executed. *)
Definition after_one_query : ConversationState :=
  {| conversation_memory :=
       [ {| role := user; content := "list assets" |};
         {| role := assistant; content := "Query returned 1 results from list assets" |} ];
     last_query_result := Some one_asset;
     last_sql_query := Some "SELECT AssetName FROM DimAsset";
     last_question := Some "list assets" |}.

End Samples.

(** ** HTTP layer: the chat endpoint and the reset endpoint *)

(** [d[key] = value] on a dictionary kept as a list of pairs in insertion
    order: a key that is there keeps its place and takes the new value. *)
Fixpoint dict_set (key value : string) (d : list (string * string))
    : list (string * string) :=
  match d with
  | [] => [(key, value)]
  | (k, v) :: rest =>
      if String.eqb k key then (k, value) :: rest
      else (k, v) :: dict_set key value rest
  end.

(** A frame as [to_dict('records')] gives it: one dictionary from column name
    to value for each row; of columns with the same name the last one's value
    stays. *)
Definition to_records (df : DataFrame) : list (list (string * string)) :=
  map (fun row => fold_left (fun d '(k, v) => dict_set k v d)
                            (combine (columns df) row) [])
      (rows df).

(** The module-level [last_query_results] without its time stamp. *)
Record LastQueryResults := {
  lqr_data : option (list (list (string * string)));
  lqr_question : string;
  lqr_sql_query : string;
  lqr_insights : string
}.

Definition no_results : LastQueryResults :=
  {| lqr_data := None; lqr_question := ""; lqr_sql_query := ""; lqr_insights := "" |}.

(** The pydantic model [ChatResponse]; a field left at its default is [None]. *)
Record ChatResponse := {
  cr_success : bool;
  cr_question : option string;
  cr_sql_query : option string;
  cr_data : option (list (list (string * string)));
  cr_insights : option string;
  cr_row_count : option nat;
  cr_error : option string;
  cr_conversation_type : option string
}.

Definition error_response (msg : string) : ChatResponse :=
  {| cr_success := false; cr_question := None; cr_sql_query := None; cr_data := None;
     cr_insights := None; cr_row_count := None; cr_error := Some msg;
     cr_conversation_type := None |}.

(** The globals of the server: the agent ([None] when its start-up failed,
    with the text of the failure), and the results kept for download. *)
Record Server := {
  chat_agent : option ConversationState;
  agent_error : option string;
  last_query_results : LastQueryResults
}.

(** What [except Exception as e] makes of a missing dictionary key. *)
Definition key_error (key : string) : ChatResponse :=
  error_response ("Server error: '" ++ key ++ "'").

Section Endpoints.

Variable CASUAL_RESPONSES : list (string * string).

(** [chat_endpoint]: the response, the server afterwards, and the database
    calls of the turn. *)
Definition chat_endpoint (srv : Server) (w : World) (request_question : string)
    : ChatResponse * Server * list DbEvent :=
  match chat_agent srv with
  | None =>
      (error_response ("Enhanced chat agent not available. Error: "
                       ++ match agent_error srv with
                          | Some e => if is_empty e then "Unknown error" else e
                          | None => "Unknown error"
                          end),
       srv, [])
  | Some agent =>
      let '(result, agent', evs) := chat CASUAL_RESPONSES agent w request_question in
      let with_agent (kept : LastQueryResults) : Server :=
        {| chat_agent := Some agent'; agent_error := agent_error srv;
           last_query_results := kept |} in
      if success result then
        let data_list :=
          match data result with
          | Some df => if Nat.ltb 0 (df_len df) then to_records df else []
          | None => []
          end in
        match question result, sql_query result, insights result with
        | Some qn, Some sq, Some text =>
            let kept := {| lqr_data := Some data_list; lqr_question := qn;
                           lqr_sql_query := sq; lqr_insights := text |} in
            match row_count result with
            | Some n =>
                ({| cr_success := true; cr_question := Some qn; cr_sql_query := Some sq;
                    cr_data := Some data_list; cr_insights := Some text;
                    cr_row_count := Some n; cr_error := None;
                    cr_conversation_type :=
                      Some match conversation_type result with
                           | Some kind => kind
                           | None => "database"
                           end |},
                 with_agent kept, evs)
            | None => (key_error "row_count", with_agent kept, evs)
            end
        | None, _, _ => (key_error "question", with_agent (last_query_results srv), evs)
        | Some _, None, _ =>
            (key_error "sql_query", with_agent (last_query_results srv), evs)
        | Some _, Some _, None =>
            (key_error "insights", with_agent (last_query_results srv), evs)
        end
      else
        ({| cr_success := false; cr_question := None; cr_sql_query := None;
            cr_data := None; cr_insights := None; cr_row_count := None;
            cr_error := error result; cr_conversation_type := None |},
         with_agent (last_query_results srv), evs)
  end.

End Endpoints.

(** [reset_conversation]: the status text and the server afterwards. *)
Definition reset_conversation (srv : Server) : string * Server :=
  match chat_agent srv with
  | Some _ =>
      ("Conversation memory reset successfully",
       {| chat_agent := Some init_state; agent_error := agent_error srv;
          last_query_results := last_query_results srv |})
  | None => ("Chat agent not available", srv)
  end.

(** The guards at the head of the three download endpoints: the HTTP status
    of the refusal, or [None] when the report is generated. *)
Definition download_refusal (download_utils_available : bool) (srv : Server)
    : option nat :=
  if negb download_utils_available then Some 503
  else match lqr_data (last_query_results srv) with
       | None => Some 404
       | Some _ => None
       end.

(** ** More sample collaborators *)

Module MoreSamples.

(** The database cannot be reached. *)
Definition offline : World :=
  {| db_connect := false;
     db_execute_query := fun _ => Rows Samples.one_asset;
     llm_generate_sql := fun _ => Samples.select_assets;
     llm_business_insights := fun _ _ => Text "One asset is listed.";
     llm_general_answer := fun _ => Text "A cap rate is income over value." |}.

(** Every generative call fails, the database works. *)
Definition mute : World :=
  {| db_connect := true;
     db_execute_query := fun _ => Rows Samples.one_asset;
     llm_generate_sql := fun _ => Samples.select_assets;
     llm_business_insights := fun _ _ => Failed "rate limit";
     llm_general_answer := fun _ => Failed "rate limit" |}.


Definition fresh_server : Server :=
  {| chat_agent := Some init_state; agent_error := None;
     last_query_results := no_results |}.

End MoreSamples.

Arguments _correct_spelling : simpl never.
Arguments _remove_query_limits : simpl never.
Arguments _clean_sql_query : simpl never.
Arguments classify : simpl never.
Arguments _generate_intelligent_sql : simpl never.
Arguments _generate_business_insights : simpl never.

(** * Properties *)

(** ** Repeat detection and template priority *)

Lemma last_n_snoc {A} (n : nat) (l : list A) (x : A) :
  0 < n -> last_n n (l ++ [x])%list = (last_n (n - 1) l ++ [x])%list.
Proof.
  intros Hn. unfold last_n. rewrite length_app, skipn_app. simpl.
  replace (List.length l + 1 - n) with (List.length l - (n - 1)) by lia.
  replace (List.length l - (n - 1) - List.length l) with 0 by lia.
  reflexivity.
Qed.

Lemma same_question_refl (q : string) :
  same_question {| role := user; content := q |} q = true.
Proof. unfold same_question. simpl. apply String.eqb_refl. Qed.

(** The entry [chat] has just appended is itself among the last five. *)
Lemma is_edited_query_after_record (st : ConversationState) (q : string) :
  is_edited_query (conversation_memory (record_question st q)) (_correct_spelling q) = true.
Proof.
  unfold is_edited_query, record_question. simpl.
  rewrite last_n_snoc by lia. rewrite existsb_app. cbn [existsb].
  rewrite same_question_refl. rewrite orb_true_r. reflexivity.
Qed.

(** Inside [chat] the resolver never reaches the canned queries. *)
Lemma resolve_in_chat (st : ConversationState) (q : string) :
  resolve (record_question st q) (_correct_spelling q)
  = Delegation (build_delegation (record_question st q) (_correct_spelling q)).
Proof. unfold resolve. rewrite is_edited_query_after_record. reflexivity. Qed.

(** C1. The question "top 3 performing assets", asked as the first question of a
    session, is a database query; in the state in which [chat] calls the
    resolver (the question already appended to the memory) the resolver
    answers with a delegation request and not with the top-performing canned
    query, which it does return, with TOP 3, when the memory does not hold the
    question. *)
Theorem C1_fresh_top3_is_delegated :
  intent_of init_state "top 3 performing assets" = DatabaseQuery
  /\ resolve (record_question init_state "top 3 performing assets")
             (_correct_spelling "top 3 performing assets")
     = Delegation {| dr_question := "top 3 performing assets";
                     dr_previous_context := None;
                     dr_conversation_context := [] |}
  /\ resolve init_state "top 3 performing assets" = SqlText (sql_top_performing "3").
Proof. repeat split; vm_compute; reflexivity. Qed.

(** C2. When a user entry among the last five memory entries equals the
    question up to case and surrounding blanks, the resolver skips the canned
    queries and yields the delegation request, whatever the question is. *)
Theorem C2_repeat_routes_to_delegation
    (st : ConversationState) (question : string) (msg : ConversationTurn) :
  In msg (last_n 5 (conversation_memory st)) ->
  role msg = user ->
  normalized (content msg) = normalized question ->
  resolve st question = Delegation (build_delegation st question).
Proof.
  intros Hin Hrole Heq. unfold resolve.
  assert (Hed : is_edited_query (conversation_memory st) question = true).
  { unfold is_edited_query. apply existsb_exists. exists msg. split; [exact Hin|].
    unfold same_question. rewrite Hrole, Heq. apply String.eqb_refl. }
  rewrite Hed. reflexivity.
Qed.

(** ** Spelling Normalizer *)

(** C3. Normalizing "revenue" gives "revenuee", and normalizing that again
    gives "revenueee": the pair revenu -> revenue also fires inside the
    correctly spelled word, so a second pass differs from the first. *)
Theorem C3_revenue_not_idempotent :
  _correct_spelling "revenue" = "revenuee"
  /\ _correct_spelling (_correct_spelling "revenue") = "revenueee"
  /\ _correct_spelling (_correct_spelling "revenue") <> _correct_spelling "revenue".
Proof. repeat split; try (vm_compute; reflexivity). vm_compute. discriminate. Qed.

(** ** Query Limit Editor *)

Section Stripping.

Variable p : ascii -> bool.

Lemma rstrip_by_idem (s : string) : rstrip_by p (rstrip_by p s) = rstrip_by p s.
Proof.
  induction s as [|c r IH]; simpl; [reflexivity|].
  destruct (p c && is_empty (rstrip_by p r)) eqn:E; simpl; [reflexivity|].
  rewrite IH, E. reflexivity.
Qed.

Lemma lstrip_by_head (s : string) :
  lstrip_by p s = "" \/ exists c r, lstrip_by p s = String c r /\ p c = false.
Proof.
  induction s as [|c r IH]; simpl; [now left|].
  destruct (p c) eqn:E; [exact IH|]. right. now exists c, r.
Qed.

Lemma strip_by_idem (s : string) : strip_by p (strip_by p s) = strip_by p s.
Proof.
  unfold strip_by.
  destruct (lstrip_by_head s) as [-> | (c & r & -> & Hc)]; [reflexivity|].
  assert (E : rstrip_by p (String c r) = String c (rstrip_by p r)).
  { simpl. now rewrite Hc. }
  rewrite E. simpl lstrip_by. rewrite Hc, <- E. apply rstrip_by_idem.
Qed.

(** What [rstrip_by] cuts off is a suffix. *)
Lemma rstrip_by_suffix (s : string) : exists t, s = rstrip_by p s ++ t.
Proof.
  induction s as [|c r [t IH]]; simpl; [now exists ""|].
  destruct (p c && is_empty (rstrip_by p r)).
  - now exists (String c r).
  - exists t. simpl. now rewrite <- IH.
Qed.




End Stripping.












(** ** Query Orchestrator *)

(** Case analysis over every test a handler makes. *)
Ltac break_match :=
  repeat match goal with
         | |- context [match ?x with _ => _ end] => destruct x eqn:?
         | |- context [if ?b then _ else _] => destruct b eqn:?
         end.

Ltac outcome_cases H :=
  revert H; break_match; intros H; inversion H; subst; clear H; cbn.

Section HandlerFacts.

Variable CASUAL_RESPONSES : list (string * string).
Variables (st : ConversationState) (w : World) (q : string).
Variables (r : ResponseEnvelope) (st' : ConversationState) (evs : list DbEvent).

Lemma followup_without_query :
  last_sql_query st = None ->
  _handle_followup_request st w q = (failure no_previous_query, st, []).
Proof. intros H. unfold _handle_followup_request. now rewrite H. Qed.

Lemma followup_keeps_query_set :
  _handle_followup_request st w q = (r, st', evs) ->
  (last_sql_query st' <> None <-> last_sql_query st <> None).
Proof.
  unfold _handle_followup_request. intros H.
  outcome_cases H; try tauto; split; congruence.
Qed.

Lemma casual_frame :
  _handle_casual_conversation CASUAL_RESPONSES st q = (r, st', evs) ->
  st' = st /\ evs = [].
Proof. unfold _handle_casual_conversation. intros H. now inversion H. Qed.

Lemma general_frame :
  _handle_general_question st w q = (r, st', evs) -> st' = st /\ evs = [].
Proof.
  unfold _handle_general_question. intros H.
  destruct (llm_general_answer w q); now inversion H.
Qed.

(** The outcomes of a database-query turn, by the database calls made. *)
Lemma database_query_outcomes :
  _handle_database_query st w q = (r, st', evs) ->
  (success r = false /\ st' = st /\ forall sql, ~ In (Execute sql) evs)
  \/ exists cleaned_query,
       evs = Connect true :: Execute cleaned_query :: skipn 2 evs
       /\ (forall sql, In (Execute sql) evs -> sql = cleaned_query)
       /\ match db_execute_query w cleaned_query with
          | Sentinel =>
              r = failure "Query execution failed. Please check the query syntax."
              /\ st' = st /\ evs = [Connect true; Execute cleaned_query]
          | Raised e => success r = false /\ st' = st
          | Rows query_df =>
              success r = true
              /\ last_sql_query st' = Some cleaned_query
              /\ (rows query_df = [] ->
                  r = answer q cleaned_query empty_frame no_data_found 0 None)
          end.
Proof.
  unfold _handle_database_query. intros H.
  destruct (negb (db_connect w)).
  { inversion H; subst. left. cbn. repeat split. intros sql [E|[]]. discriminate. }
  destruct (_generate_intelligent_sql st w q) as [sql|].
  2:{ inversion H; subst. left. cbn. repeat split. intros sql [E|[]]. discriminate. }
  destruct (is_empty sql || contains "not possible" (lower sql)).
  { inversion H; subst. left. cbn. repeat split. intros s [E|[]]. discriminate. }
  right. exists (_clean_sql_query sql).
  destruct (db_execute_query w (_clean_sql_query sql)) as [df| |e] eqn:Hx.
  - unfold df_len in H. destruct (rows df) as [|row rest] eqn:Hrows; cbn in H.
    + inversion H; subst. cbn. repeat split.
      intros s [E|[E|[]]]; congruence.
    + inversion H; subst. cbn. repeat split.
      * intros s [E|[E|[E|[]]]]; congruence.
      * discriminate.
  - inversion H; subst. cbn. repeat split.
    intros s [E|[E|[]]]; congruence.
  - inversion H; subst. cbn. repeat split.
    intros s [E|[E|[E|[]]]]; congruence.
Qed.

Lemma database_query_keeps_or_sets :
  _handle_database_query st w q = (r, st', evs) ->
  (last_sql_query st' <> None <-> last_sql_query st <> None \/ success r = true).
Proof.
  intros H. destruct (database_query_outcomes H) as [(Hs & -> & _) | (c & _ & _ & Hc)].
  - rewrite Hs. intuition discriminate.
  - destruct (db_execute_query w c).
    + destruct Hc as (Hs & Hq & _). rewrite Hs, Hq. intuition discriminate.
    + destruct Hc as (-> & -> & _). cbn. intuition discriminate.
    + destruct Hc as (Hs & ->). rewrite Hs. intuition discriminate.
Qed.

End HandlerFacts.

Arguments followup_without_query [st] w q _.
Arguments database_query_outcomes [st w q r st' evs] _.

Section TurnFacts.

Variable CR : list (string * string).

(** One turn sets [last_sql_query] exactly when it is a database-query turn
    that succeeds, and never clears it. *)
Lemma chat_last_sql_query [st w q r st' evs] :
  chat CR st w q = (r, st', evs) ->
  (last_sql_query st' <> None <->
   last_sql_query st <> None \/ (intent_of st q = DatabaseQuery /\ success r = true)).
Proof.
  unfold chat, intent_of. intros H.
  destruct (classify (record_question st q) (_correct_spelling q)).
  - apply followup_keeps_query_set in H. cbn in H. rewrite H.
    intuition discriminate.
  - apply casual_frame in H. destruct H as [-> _]. cbn. intuition discriminate.
  - apply database_query_keeps_or_sets in H. cbn in H. rewrite H. tauto.
  - apply general_frame in H. destruct H as [-> _]. cbn. intuition discriminate.
Qed.

Lemma run_cons st w q rest :
  run CR st ((w, q) :: rest) =
  (fst (run CR (snd (fst (chat CR st w q))) rest),
   {| turn_intent := intent_of st q;
      turn_response := fst (fst (chat CR st w q));
      turn_events := snd (chat CR st w q) |}
   :: snd (run CR (snd (fst (chat CR st w q))) rest)).
Proof.
  cbn [run]. destruct (chat CR st w q) as [[r st'] evs]. cbn.
  destruct (run CR st' rest). reflexivity.
Qed.

Lemma run_last_sql_query turns : forall st,
  last_sql_query (fst (run CR st turns)) <> None <->
  last_sql_query st <> None
  \/ Exists (fun t => executed_query t = true) (snd (run CR st turns)).
Proof.
  induction turns as [|[w q] rest IH]; intros st.
  - cbn. rewrite Exists_nil. tauto.
  - rewrite run_cons. cbn [fst snd]. rewrite IH, Exists_cons.
    destruct (chat CR st w q) as [[r st'] evs] eqn:Hc. cbn [fst snd].
    rewrite (chat_last_sql_query Hc).
    unfold executed_query. cbn [turn_intent turn_response].
    destruct (intent_of st q); intuition discriminate.
Qed.

Lemma chat_followup_without_query [st] w [q] :
  last_sql_query st = None ->
  intent_of st q = FollowUp ->
  chat CR st w q = (failure no_previous_query, record_question st q, []).
Proof.
  unfold chat, intent_of. intros Hn ->.
  now apply followup_without_query.
Qed.

(** C5 (as amended). In every state a session reaches from its start,
    [last_sql_query] is set if and only if some database-query turn of the
    session has executed successfully; and when it is not set, a follow-up
    request fails with the no-previous-query error and makes no database
    call. *)
Theorem C5_last_sql_query_set_iff_some_query_succeeded (turns : list (World * string)) :
  (last_sql_query (fst (run CR init_state turns)) <> None <->
   Exists (fun t => executed_query t = true) (snd (run CR init_state turns)))
  /\ (last_sql_query (fst (run CR init_state turns)) = None ->
      forall w q,
        intent_of (fst (run CR init_state turns)) q = FollowUp ->
        chat CR (fst (run CR init_state turns)) w q
        = (failure no_previous_query,
           record_question (fst (run CR init_state turns)) q, [])).
Proof.
  split.
  - rewrite run_last_sql_query. cbn. intuition congruence.
  - intros Hn w q Hi. now apply chat_followup_without_query.
Qed.

(** C6 (as amended). When a database-query turn executes a query and the
    executor answers it with the failure sentinel, the turn reports the
    execution error, [last_sql_query] and [last_query_result] are what they
    were, and of the session state only what [chat] records of every
    question has changed: [last_question] is the raw question and the
    corrected question is the new last memory entry. *)
Theorem C6_execution_failure_keeps_last_query st w q r st' evs sql :
  intent_of st q = DatabaseQuery ->
  chat CR st w q = (r, st', evs) ->
  In (Execute sql) evs ->
  db_execute_query w sql = Sentinel ->
  success r = false
  /\ error r = Some "Query execution failed. Please check the query syntax."
  /\ last_sql_query st' = last_sql_query st
  /\ last_query_result st' = last_query_result st
  /\ last_question st' = Some q
  /\ conversation_memory st'
     = (conversation_memory st ++ [ {| role := user; content := _correct_spelling q |} ])%list.
Proof.
  unfold chat, intent_of. intros -> H Hin Hx.
  destruct (database_query_outcomes H) as [(_ & _ & Hno) | (c & _ & Hc & Hm)].
  - destruct (Hno _ Hin).
  - rewrite <- (Hc _ Hin), Hx in Hm. destruct Hm as (-> & -> & _).
    cbn. repeat split.
Qed.

(** C8. With [last_sql_query] not set, a turn classified as a follow-up
    request answers [success = false] with the no-previous-query message and
    makes no database call. *)
Theorem C8_followup_without_prior_query st w q :
  last_sql_query st = None ->
  intent_of st q = FollowUp ->
  success (fst (fst (chat CR st w q))) = false
  /\ error (fst (fst (chat CR st w q)))
     = Some "No previous query to expand. Please ask a specific question first."
  /\ snd (chat CR st w q) = [].
Proof.
  intros Hn Hi. rewrite (chat_followup_without_query w Hn Hi). cbn. repeat split.
Qed.

(** C9. When a database-query turn executes a query and the executor
    answers it with a frame of zero rows, the envelope has [success = true],
    [row_count = 0], no error, and the advisory text as its insight, which is
    not empty. *)
Theorem C9_empty_result_is_success st w q r st' evs sql df :
  intent_of st q = DatabaseQuery ->
  chat CR st w q = (r, st', evs) ->
  In (Execute sql) evs ->
  db_execute_query w sql = Rows df ->
  rows df = [] ->
  success r = true
  /\ row_count r = Some 0
  /\ error r = None
  /\ insights r = Some no_data_found
  /\ no_data_found <> "".
Proof.
  unfold chat, intent_of. intros -> H Hin Hx Hrows.
  destruct (database_query_outcomes H) as [(_ & _ & Hno) | (c & _ & Hc & Hm)].
  - destruct (Hno _ Hin).
  - rewrite <- (Hc _ Hin), Hx in Hm. destruct Hm as (_ & _ & Hr).
    rewrite (Hr Hrows). cbn. repeat split. discriminate.
Qed.

Lemma chat_casual_or_general_frame [st w q r st' evs] :
  intent_of st q = Casual \/ intent_of st q = General ->
  chat CR st w q = (r, st', evs) ->
  st' = record_question st q /\ evs = [].
Proof.
  unfold chat, intent_of. intros [-> | ->] H.
  - now apply casual_frame in H.
  - now apply general_frame in H.
Qed.

(** A follow-up turn reads of the session state only [last_sql_query] and
    [last_question]. *)
Lemma followup_reads_last_sql_query st1 st2 w q :
  last_sql_query st1 = last_sql_query st2 ->
  last_question st1 = last_question st2 ->
  fst (fst (_handle_followup_request st1 w q)) = fst (fst (_handle_followup_request st2 w q))
  /\ snd (_handle_followup_request st1 w q) = snd (_handle_followup_request st2 w q).
Proof.
  unfold _handle_followup_request. intros -> ->.
  break_match; cbn; split; reflexivity.
Qed.

(** C10. Over any stretch of turns that are all classified as casual
    conversation or as general questions, [last_sql_query] and
    [last_query_result] stay what they were and no turn makes a database
    call; a follow-up request after the stretch therefore gets the same
    envelope, from the same database calls, as it would have got before. *)
Theorem C10_casual_and_general_turns_keep_last_query turns : forall st,
  Forall (fun t => turn_intent t = Casual \/ turn_intent t = General)
         (snd (run CR st turns)) ->
  last_sql_query (fst (run CR st turns)) = last_sql_query st
  /\ last_query_result (fst (run CR st turns)) = last_query_result st
  /\ Forall (fun t => turn_events t = []) (snd (run CR st turns))
  /\ forall w q,
       _is_followup_request (_correct_spelling q) = true ->
       fst (fst (chat CR (fst (run CR st turns)) w q)) = fst (fst (chat CR st w q))
       /\ snd (chat CR (fst (run CR st turns)) w q) = snd (chat CR st w q).
Proof.
  induction turns as [|[w0 q0] rest IH]; intros st Hall.
  - cbn. repeat split; constructor.
  - rewrite run_cons in *. cbn [fst snd] in *.
    apply Forall_cons_iff in Hall. destruct Hall as [Hi Hrest]. cbn in Hi.
    destruct (chat CR st w0 q0) as [[r st1] evs] eqn:Hc. cbn [fst snd] in *.
    destruct (chat_casual_or_general_frame Hi Hc) as [-> ->].
    destruct (IH _ Hrest) as (Hq & Hr & He & Hf).
    repeat split.
    + now rewrite Hq.
    + now rewrite Hr.
    + now constructor.
    + destruct (Hf w q H) as [E _]. rewrite E.
      unfold chat, classify. rewrite H.
      now apply followup_reads_last_sql_query.
    + destruct (Hf w q H) as [_ E]. rewrite E.
      unfold chat, classify. rewrite H.
      now apply followup_reads_last_sql_query.
Qed.

End TurnFacts.

(** ** Sample sessions *)

Import Samples.

(** C5, as the specification states it, fails: after a query that executed and a later one
    whose execution failed, [last_sql_query] still holds the first query
    although the most recent database-query turn did not execute
    successfully. *)
Lemma C5_counterexample :
  last_sql_query
    (fst (run [] init_state
              [(healthy, "list assets"); (failing_executor, "list assets by city")]))
  = Some "SELECT AssetName FROM DimAsset"
  /\ most_recent_query_ok
       (snd (run [] init_state
                 [(healthy, "list assets"); (failing_executor, "list assets by city")]))
     = Some false
  /\ ~ (last_sql_query
          (fst (run [] init_state
                    [(healthy, "list assets"); (failing_executor, "list assets by city")]))
        <> None
        <-> most_recent_query_ok
              (snd (run [] init_state
                        [(healthy, "list assets"); (failing_executor, "list assets by city")]))
            = Some true).
Proof.
  split; [vm_compute; reflexivity|]. split; [vm_compute; reflexivity|].
  vm_compute. intros [H _]. assert (E : Some false = Some true) by (apply H; discriminate).
  discriminate.
Qed.

(** C6, as the specification states it, fails: the turn whose execution failed has changed
    [last_question] and the transcript. *)
Lemma C6_counterexample :
  intent_of after_one_query "list assets by city" = DatabaseQuery
  /\ snd (chat [] after_one_query failing_executor "list assets by city")
     = [Connect true; Execute "SELECT AssetName FROM DimAsset"]
  /\ db_execute_query failing_executor "SELECT AssetName FROM DimAsset" = Sentinel
  /\ last_question (snd (fst (chat [] after_one_query failing_executor "list assets by city")))
     <> last_question after_one_query
  /\ conversation_memory
       (snd (fst (chat [] after_one_query failing_executor "list assets by city")))
     <> conversation_memory after_one_query.
Proof. repeat split; try (vm_compute; reflexivity); vm_compute; discriminate. Qed.

(** C7. The turns below open the connection and return with it still open:
    the execution of a database query fails, the generated text is a refusal,
    the generation itself fails, the result is empty, and the execution of an
    expanded follow-up query fails.  Only the turn that succeeds with rows and
    the one whose executor raises close it. *)
Theorem C7_connection_left_open :
  snd (chat [] init_state failing_executor "list assets")
  = [Connect true; Execute "SELECT AssetName FROM DimAsset"]
  /\ snd (chat [] init_state refusing "list assets") = [Connect true]
  /\ snd (chat [] init_state silent "list assets") = [Connect true]
  /\ snd (chat [] init_state empty_result "list assets")
     = [Connect true; Execute "SELECT AssetName FROM DimAsset"]
  /\ snd (chat [] after_one_query failing_executor "show all")
     = [Connect true; Execute "SELECT AssetName FROM DimAsset"]
  /\ connection_open_after false (snd (chat [] init_state failing_executor "list assets"))
     = true
  /\ snd (chat [] init_state healthy "list assets")
     = [Connect true; Execute "SELECT AssetName FROM DimAsset"; Close]
  /\ snd (chat [] init_state raising_executor "list assets")
     = [Connect true; Execute "SELECT AssetName FROM DimAsset"; Close].
Proof. repeat split; vm_compute; reflexivity. Qed.

Lemma C2_repeat_routes_to_delegation_witness :
  In {| role := user; content := " Show Properties " |}
     (last_n 5 (conversation_memory
                  {| conversation_memory := [ {| role := user; content := " Show Properties " |} ];
                     last_query_result := None; last_sql_query := None;
                     last_question := Some " Show Properties " |}))
  /\ match_template "show properties" = Canned sql_all_properties
  /\ resolve {| conversation_memory := [ {| role := user; content := " Show Properties " |} ];
                last_query_result := None; last_sql_query := None;
                last_question := Some " Show Properties " |}
             "show properties"
     = Delegation
         (build_delegation
            {| conversation_memory := [ {| role := user; content := " Show Properties " |} ];
               last_query_result := None; last_sql_query := None;
               last_question := Some " Show Properties " |}
            "show properties").
Proof.
  split; [left; reflexivity|]. split; [vm_compute; reflexivity|].
  apply (C2_repeat_routes_to_delegation
           {| conversation_memory := [ {| role := user; content := " Show Properties " |} ];
              last_query_result := None; last_sql_query := None;
              last_question := Some " Show Properties " |}
           "show properties"
           {| role := user; content := " Show Properties " |}).
  - left; reflexivity.
  - reflexivity.
  - vm_compute; reflexivity.
Defined.

Lemma C5_last_sql_query_witness :
  last_sql_query (fst (run [] init_state [(failing_executor, "list assets")])) = None
  /\ intent_of (fst (run [] init_state [(failing_executor, "list assets")])) "show all"
     = FollowUp
  /\ chat [] (fst (run [] init_state [(failing_executor, "list assets")])) healthy "show all"
     = (failure no_previous_query,
        record_question (fst (run [] init_state [(failing_executor, "list assets")])) "show all",
        []).
Proof.
  assert (Hn : last_sql_query (fst (run [] init_state [(failing_executor, "list assets")]))
               = None) by (vm_compute; reflexivity).
  assert (Hi : intent_of (fst (run [] init_state [(failing_executor, "list assets")]))
                         "show all" = FollowUp) by (vm_compute; reflexivity).
  exact (conj Hn (conj Hi
           (proj2 (C5_last_sql_query_set_iff_some_query_succeeded []
                     [(failing_executor, "list assets")]) Hn healthy "show all" Hi))).
Defined.

Lemma outcome_eta (o : Outcome) : o = (fst (fst o), snd (fst o), snd o).
Proof. now destruct o as [[r st] evs]. Qed.

Lemma C6_execution_failure_witness :
  intent_of after_one_query "list assets by city" = DatabaseQuery
  /\ In (Execute "SELECT AssetName FROM DimAsset")
        (snd (chat [] after_one_query failing_executor "list assets by city"))
  /\ db_execute_query failing_executor "SELECT AssetName FROM DimAsset" = Sentinel
  /\ last_sql_query (snd (fst (chat [] after_one_query failing_executor "list assets by city")))
     = last_sql_query after_one_query
  /\ last_query_result (snd (fst (chat [] after_one_query failing_executor "list assets by city")))
     = last_query_result after_one_query.
Proof.
  assert (Hi : intent_of after_one_query "list assets by city" = DatabaseQuery)
    by (vm_compute; reflexivity).
  assert (Hin : In (Execute "SELECT AssetName FROM DimAsset")
                   (snd (chat [] after_one_query failing_executor "list assets by city")))
    by (vm_compute; right; left; reflexivity).
  assert (Hx : db_execute_query failing_executor "SELECT AssetName FROM DimAsset" = Sentinel)
    by reflexivity.
  pose proof (C6_execution_failure_keeps_last_query []
                after_one_query failing_executor "list assets by city" _ _ _
                "SELECT AssetName FROM DimAsset" Hi (outcome_eta _) Hin Hx)
    as (_ & _ & Hq & Hr & _).
  exact (conj Hi (conj Hin (conj Hx (conj Hq Hr)))).
Defined.

Lemma C8_followup_without_prior_query_witness :
  last_sql_query init_state = None
  /\ intent_of init_state "show all results" = FollowUp
  /\ success (fst (fst (chat [] init_state healthy "show all results"))) = false
  /\ error (fst (fst (chat [] init_state healthy "show all results")))
     = Some "No previous query to expand. Please ask a specific question first."
  /\ snd (chat [] init_state healthy "show all results") = [].
Proof.
  assert (Hn : last_sql_query init_state = None) by reflexivity.
  assert (Hi : intent_of init_state "show all results" = FollowUp)
    by (vm_compute; reflexivity).
  exact (conj Hn (conj Hi
           (C8_followup_without_prior_query [] init_state healthy "show all results" Hn Hi))).
Defined.

Lemma C9_empty_result_witness :
  intent_of init_state "list assets" = DatabaseQuery
  /\ In (Execute "SELECT AssetName FROM DimAsset")
        (snd (chat [] init_state empty_result "list assets"))
  /\ db_execute_query empty_result "SELECT AssetName FROM DimAsset" = Rows no_rows
  /\ rows no_rows = []
  /\ success (fst (fst (chat [] init_state empty_result "list assets"))) = true
  /\ row_count (fst (fst (chat [] init_state empty_result "list assets"))) = Some 0
  /\ insights (fst (fst (chat [] init_state empty_result "list assets")))
     = Some no_data_found.
Proof.
  assert (Hi : intent_of init_state "list assets" = DatabaseQuery)
    by (vm_compute; reflexivity).
  assert (Hin : In (Execute "SELECT AssetName FROM DimAsset")
                   (snd (chat [] init_state empty_result "list assets")))
    by (vm_compute; right; left; reflexivity).
  assert (Hx : db_execute_query empty_result "SELECT AssetName FROM DimAsset" = Rows no_rows)
    by reflexivity.
  assert (Hr : rows no_rows = []) by reflexivity.
  pose proof (C9_empty_result_is_success []
                init_state empty_result "list assets" _ _ _
                "SELECT AssetName FROM DimAsset" no_rows Hi (outcome_eta _) Hin Hx Hr)
    as (Hs & Hc & _ & Ht & _).
  exact (conj Hi (conj Hin (conj Hx (conj Hr (conj Hs (conj Hc Ht)))))).
Defined.

Lemma C10_casual_and_general_witness :
  Forall (fun t => turn_intent t = Casual \/ turn_intent t = General)
         (snd (run [] after_one_query
                   [(failing_executor, "hello there"); (healthy, "why is the sky blue")]))
  /\ last_sql_query
       (fst (run [] after_one_query
                 [(failing_executor, "hello there"); (healthy, "why is the sky blue")]))
     = last_sql_query after_one_query
  /\ last_query_result
       (fst (run [] after_one_query
                 [(failing_executor, "hello there"); (healthy, "why is the sky blue")]))
     = last_query_result after_one_query.
Proof.
  assert (Hall : Forall (fun t => turn_intent t = Casual \/ turn_intent t = General)
                   (snd (run [] after_one_query
                             [(failing_executor, "hello there");
                              (healthy, "why is the sky blue")]))).
  { vm_compute. constructor; [left; reflexivity|].
    constructor; [right; reflexivity|]. constructor. }
  pose proof (C10_casual_and_general_turns_keep_last_query []
                [(failing_executor, "hello there"); (healthy, "why is the sky blue")]
                after_one_query Hall)
    as (Hq & Hr & _).
  exact (conj Hall (conj Hq Hr)).
Defined.

(** * Further properties of the code *)

(** ** Text primitives *)

Lemma contains_unfold (k s : string) :
  contains k s
  = (String.prefix k s
     || match s with EmptyString => false | String _ r => contains k r end).
Proof. destruct s; reflexivity. Qed.

Lemma prefix_empty (s : string) : String.prefix "" s = true.
Proof. destruct s; reflexivity. Qed.

Lemma prefix_app (k a t : string) :
  String.prefix k a = true -> String.prefix k (a ++ t) = true.
Proof.
  revert k. induction a as [|b a IH]; intros [|x k]; cbn; try discriminate.
  - intros _. apply prefix_empty.
  - reflexivity.
  - destruct (ascii_dec x b); [apply IH|discriminate].
Qed.

Lemma contains_app_l (k a t : string) :
  contains k a = true -> contains k (a ++ t) = true.
Proof.
  induction a as [|c a IH]; rewrite contains_unfold; intros H.
  - rewrite orb_false_r in H. rewrite contains_unfold.
    now rewrite (prefix_app k "" t H).
  - apply orb_true_iff in H. change (String c a ++ t) with (String c (a ++ t)).
    rewrite contains_unfold. destruct H as [H|H].
    + change (String c (a ++ t)) with (String c a ++ t).
      now rewrite (prefix_app _ _ t H).
    + now rewrite (IH H), orb_true_r.
Qed.

Lemma contains_app_r (k a b : string) :
  contains k b = true -> contains k (a ++ b) = true.
Proof.
  intros H. induction a as [|c a IH]; [exact H|].
  change (String c a ++ b) with (String c (a ++ b)).
  rewrite contains_unfold, IH. apply orb_true_r.
Qed.

Lemma map_string_app (f : ascii -> ascii) (a b : string) :
  map_string f (a ++ b) = map_string f a ++ map_string f b.
Proof. induction a as [|c a IH]; cbn; [reflexivity|now rewrite IH]. Qed.

Lemma lstrip_by_prefix (p : ascii -> bool) (s : string) :
  exists a, s = a ++ lstrip_by p s.
Proof.
  induction s as [|c r [a IH]]; cbn; [now exists ""|].
  destruct (p c); [|now exists ""]. exists (String c a). cbn. now rewrite <- IH.
Qed.

(** What [strip_by] returns is a piece of its argument. *)
Lemma strip_by_inside (p : ascii -> bool) (s : string) :
  exists a b, s = a ++ strip_by p s ++ b.
Proof.
  destruct (lstrip_by_prefix p s) as [a Ha].
  destruct (rstrip_by_suffix p (lstrip_by p s)) as [b Hb].
  exists a, b. unfold strip_by. now rewrite <- Hb.
Qed.

Lemma contains_inside (k a x b : string) :
  contains k x = true -> contains k (a ++ x ++ b) = true.
Proof. intros H. apply contains_app_r. now apply contains_app_l. Qed.

Lemma contains_strip_by (p : ascii -> bool) (k s : string) :
  contains k s = false -> contains k (strip_by p s) = false.
Proof.
  intros H. destruct (contains k (strip_by p s)) eqn:E; [|reflexivity].
  destruct (strip_by_inside p s) as (a & b & Hs).
  rewrite Hs in H. now rewrite (contains_inside k a _ b E) in H.
Qed.

Lemma split_head_prefix (sep : ascii) (s : string) :
  exists t, s = split_head sep s ++ t.
Proof.
  induction s as [|c r [t IH]]; cbn; [now exists ""|].
  destruct (Ascii.eqb c sep); [now exists (String c r)|].
  exists t. cbn. now rewrite <- IH.
Qed.

Lemma split_head_no_sep (sep : ascii) (s : string) :
  contains (String sep "") (split_head sep s) = false.
Proof.
  induction s as [|c r IH]; cbn; [reflexivity|].
  destruct (Ascii.eqb c sep) eqn:E; [reflexivity|].
  rewrite contains_unfold, IH. cbn.
  destruct (ascii_dec sep c) as [->|_]; [|reflexivity].
  now rewrite Ascii.eqb_refl in E.
Qed.

(** ** SQL cleaning *)

Lemma clean_sql_no_terminator (sql_query : string) :
  contains ";" (_clean_sql_query sql_query) = false.
Proof.
  unfold _clean_sql_query.
  apply contains_strip_by. cbv zeta.
  set (s := strip_char "'" _).
  destruct (contains ";" s) eqn:E; [apply split_head_no_sep|exact E].
Qed.

Lemma clean_sql_stripped (sql_query : string) :
  strip (_clean_sql_query sql_query) = _clean_sql_query sql_query.
Proof. unfold _clean_sql_query. apply strip_by_idem. Qed.

(** X1. The cleaned text holds no statement terminator and no blank at either
    end, whatever the generated text was. *)
Theorem clean_sql_single_statement (sql_query : string) :
  contains ";" (_clean_sql_query sql_query) = false
  /\ strip (_clean_sql_query sql_query) = _clean_sql_query sql_query.
Proof. split; [apply clean_sql_no_terminator|apply clean_sql_stripped]. Qed.

(** After a removal pass no code fence is left: a run of back quotes keeps
    fewer than three of them. *)
Lemma prefix_cons (a b : ascii) (k s : string) :
  String.prefix (String a k) (String b s)
  = if ascii_dec a b then String.prefix k s else false.
Proof. reflexivity. Qed.

Lemma prefix_cons_nil (a : ascii) (k : string) : String.prefix (String a k) "" = false.
Proof. reflexivity. Qed.

Ltac prefix_cases :=
  repeat first [rewrite prefix_cons in * | rewrite prefix_empty in *
               | rewrite prefix_cons_nil in *];
  repeat match goal with
         | |- context [ascii_dec ?a ?b] => destruct (ascii_dec a b); subst
         | H : context [ascii_dec ?a ?b] |- _ => destruct (ascii_dec a b); subst
         end;
  try discriminate; try congruence.

Lemma replace_fence_head1 (r : string) :
  String.prefix "`" r = false -> String.prefix "`" (replace "```" "" r) = false.
Proof.
  destruct r as [|e r]; [reflexivity|]. intros H.
  unfold replace. cbn [replace_from].
  destruct (String.prefix "```" (String e r)) eqn:E; prefix_cases.
Qed.

Lemma replace_fence_head2 (r : string) :
  String.prefix "``" r = false -> String.prefix "``" (replace "```" "" r) = false.
Proof.
  destruct r as [|d r]; [reflexivity|]. intros H.
  unfold replace. cbn [replace_from].
  destruct (String.prefix "```" (String d r)) eqn:E.
  - destruct r as [|e r]; prefix_cases.
  - rewrite prefix_cons in *. destruct (ascii_dec "`" d); [|reflexivity].
    now apply replace_fence_head1.
Qed.

Lemma replace_fence_head3 (c : ascii) (r : string) :
  String.prefix "```" (String c r) = false ->
  String.prefix "```" (String c (replace "```" "" r)) = false.
Proof.
  rewrite !prefix_cons. destruct (ascii_dec "`" c); [|reflexivity].
  apply replace_fence_head2.
Qed.

Lemma replace_fence_gone (s : string) : forall skip,
  contains "```" (replace_from skip "```" "" s) = false.
Proof.
  induction s as [|c r IH]; intros skip; [reflexivity|].
  destruct skip as [|k]; [|apply IH].
  cbn [replace_from]. destruct (String.prefix "```" (String c r)) eqn:E.
  - apply IH.
  - rewrite contains_unfold, (IH 0), orb_false_r.
    now apply replace_fence_head3.
Qed.

(** X2. The cleaned text holds no code fence. *)
Theorem clean_sql_no_code_fence (sql_query : string) :
  contains "```" (_clean_sql_query sql_query) = false.
Proof.
  unfold _clean_sql_query. cbv zeta.
  apply contains_strip_by.
  set (fenceless := replace "```" "" (replace "```sql" "" sql_query)).
  assert (H : contains "```" (strip_char "'" (strip_char double_quote (strip fenceless)))
              = false).
  { unfold strip_char, strip. do 3 apply contains_strip_by.
    apply replace_fence_gone. }
  destruct (contains ";" _); [|exact H].
  destruct (split_head_prefix ";"
              (strip_char "'" (strip_char double_quote (strip fenceless)))) as [t Ht].
  destruct (contains "```" (split_head ";" _)) eqn:E; [|reflexivity].
  rewrite Ht in H. now rewrite (contains_app_l _ _ t E) in H.
Qed.

(** ** Query Limit Editor *)

Lemma Subseq_refl (s : string) : Subseq s s.
Proof. induction s; constructor; assumption. Qed.

Lemma Subseq_empty (s : string) : Subseq "" s.
Proof. induction s; constructor; assumption. Qed.

Lemma Subseq_trans (a b c : string) : Subseq a b -> Subseq b c -> Subseq a c.
Proof.
  intros Hab Hbc. revert a Hab.
  induction Hbc as [|x b c Hbc IH|x b c Hbc IH]; intros a Hab.
  - exact Hab.
  - constructor. now apply IH.
  - inversion Hab; subst.
    + apply Subseq_skip. now apply IH.
    + apply Subseq_keep. now apply IH.
Qed.

Lemma Subseq_length (a b : string) :
  Subseq a b -> String.length a <= String.length b.
Proof. induction 1; cbn; lia. Qed.

Lemma lstrip_by_Subseq (p : ascii -> bool) (s : string) : Subseq (lstrip_by p s) s.
Proof.
  induction s as [|c r IH]; cbn; [constructor|].
  destruct (p c); [now apply Subseq_skip|apply Subseq_refl].
Qed.

Lemma rstrip_by_Subseq (p : ascii -> bool) (s : string) : Subseq (rstrip_by p s) s.
Proof.
  induction s as [|c r IH]; cbn; [constructor|].
  destruct (p c && is_empty (rstrip_by p r)); [apply Subseq_empty|now apply Subseq_keep].
Qed.

Lemma strip_by_Subseq (p : ascii -> bool) (s : string) : Subseq (strip_by p s) s.
Proof.
  unfold strip_by. eapply Subseq_trans; [apply rstrip_by_Subseq|apply lstrip_by_Subseq].
Qed.

Lemma sub_top_limit_Subseq (s : string) : forall skip, Subseq (sub_top_limit skip s) s.
Proof.
  induction s as [|c r IH]; intros skip; [constructor|].
  destruct skip as [|k]; [|apply Subseq_skip, IH].
  cbn [sub_top_limit]. destruct (match_top_limit (String c r));
    [apply Subseq_skip, IH|apply Subseq_keep, IH].
Qed.

Lemma remove_query_limits_Subseq (sql_query : string) :
  Subseq (_remove_query_limits sql_query) sql_query.
Proof.
  unfold _remove_query_limits, strip.
  eapply Subseq_trans; [apply strip_by_Subseq|apply sub_top_limit_Subseq].
Qed.

Lemma remove_query_limits_stripped (sql_query : string) :
  strip (_remove_query_limits sql_query) = _remove_query_limits sql_query.
Proof. unfold _remove_query_limits. apply strip_by_idem. Qed.

(** X3. The editor only deletes characters, and what it returns has no blank
    at either end. *)
Theorem remove_query_limits_only_deletes (sql_query : string) :
  Subseq (_remove_query_limits sql_query) sql_query
  /\ String.length (_remove_query_limits sql_query) <= String.length sql_query
  /\ strip (_remove_query_limits sql_query) = _remove_query_limits sql_query.
Proof.
  split; [apply remove_query_limits_Subseq|].
  split; [apply Subseq_length, remove_query_limits_Subseq|].
  apply remove_query_limits_stripped.
Qed.

(** ** Spelling Normalizer *)

Lemma replace_absent (old new s : string) :
  contains old s = false -> replace old new s = s.
Proof.
  unfold replace. induction s as [|c r IH]; [reflexivity|].
  rewrite contains_unfold. intros H. apply orb_false_iff in H. destruct H as [Hp Hr].
  cbn [replace_from]. rewrite Hp, (IH Hr). reflexivity.
Qed.

Lemma fold_replace_absent (table : list (string * string)) (text : string) :
  (forall mistake correction, In (mistake, correction) table ->
                              contains mistake text = false) ->
  fold_left (fun corrected '(mistake, correction) => replace mistake correction corrected)
            table text = text.
Proof.
  induction table as [|[m c] table IH]; intros H; [reflexivity|].
  cbn [fold_left]. rewrite (replace_absent m c text) by (apply (H m c); now left).
  apply IH. intros m' c' Hin. apply (H m' c'). now right.
Qed.

(** X4. A text in which none of the listed misspellings occurs is returned as
    it is. *)
Theorem correct_spelling_keeps_clean_text (text : string) :
  (forall mistake correction, In (mistake, correction) spelling_corrections ->
                              contains mistake text = false) ->
  _correct_spelling text = text.
Proof. apply fold_replace_absent. Qed.

Lemma correct_spelling_keeps_clean_text_witness :
  (forall mistake correction, In (mistake, correction) spelling_corrections ->
                              contains mistake "show me hospitality assets" = false)
  /\ _correct_spelling "show me hospitality assets" = "show me hospitality assets".
Proof.
  assert (H : forall mistake correction,
             In (mistake, correction) spelling_corrections ->
             contains mistake "show me hospitality assets" = false).
  { intros m c Hin. unfold spelling_corrections in Hin.
    repeat (destruct Hin as [E|Hin]; [inversion E; subst; vm_compute; reflexivity|]).
    destruct Hin. }
  exact (conj H (correct_spelling_keeps_clean_text "show me hospitality assets" H)).
Defined.

(** ** Intent Classifier *)

Lemma contains_any_incl (ks ks' : list string) (s : string) :
  incl ks ks' -> contains_any ks s = true -> contains_any ks' s = true.
Proof.
  unfold contains_any. intros Hincl H. apply existsb_exists in H.
  destruct H as (k & Hin & Hk). apply existsb_exists. exists k. split; [|exact Hk].
  now apply Hincl.
Qed.

(** The words of the test on earlier results are data keywords as well, so
    that test adds nothing. *)
Lemma needs_database_query_stateless (st : ConversationState) (question : string) :
  _needs_database_query st question = contains_any data_keywords (lower question).
Proof.
  unfold _needs_database_query. cbv zeta.
  destruct (truthy (last_sql_query st)); cbn [andb]; [|reflexivity].
  destruct (contains_any ["above"; "previous"; "again"; "results"; "date"] (lower question))
    eqn:E; [|reflexivity].
  symmetry. revert E. apply contains_any_incl.
  intros k Hk. unfold data_keywords.
  repeat (destruct Hk as [<-|Hk]; [repeat (first [left; reflexivity | right])|]).
  destruct Hk.
Qed.

(** X5. The intent depends on the question up to letter case only, not on the
    session state. *)
Theorem classify_depends_on_lowercase_only
    (st1 st2 : ConversationState) (q1 q2 : string) :
  lower q1 = lower q2 -> classify st1 q1 = classify st2 q2.
Proof.
  intros H. unfold classify, _is_followup_request, _is_casual_conversation.
  rewrite !needs_database_query_stateless, H. reflexivity.
Qed.

Lemma classify_depends_on_lowercase_only_witness :
  lower "Show ALL Results" = lower "show all results"
  /\ classify init_state "Show ALL Results"
     = classify Samples.after_one_query "show all results".
Proof.
  assert (H : lower "Show ALL Results" = lower "show all results")
    by (vm_compute; reflexivity).
  exact (conj H (classify_depends_on_lowercase_only
                   init_state Samples.after_one_query _ _ H)).
Defined.

Lemma prefix_split (k s : string) :
  String.prefix k s = true -> exists b, s = k ++ b.
Proof.
  revert k. induction s as [|c s IH]; intros [|x k] H.
  - now exists "".
  - discriminate.
  - now exists (String c s).
  - rewrite prefix_cons in H. destruct (ascii_dec x c) as [->|]; [|discriminate].
    destruct (IH k H) as [b ->]. now exists b.
Qed.

Lemma prefix_refl_app (k b : string) : String.prefix k (k ++ b) = true.
Proof.
  induction k as [|c k IH]; [apply prefix_empty|].
  change (String c k ++ b) with (String c (k ++ b)). rewrite prefix_cons.
  destruct (ascii_dec c c); [exact IH|congruence].
Qed.

Lemma contains_split (k s : string) :
  contains k s = true -> exists a b, s = a ++ k ++ b.
Proof.
  induction s as [|c s IH]; rewrite contains_unfold; intros H.
  - rewrite orb_false_r in H. destruct (prefix_split _ _ H) as [b Hb].
    now exists "", b.
  - apply orb_true_iff in H. destruct H as [H|H].
    + destruct (prefix_split _ _ H) as [b Hb]. now exists "", b.
    + destruct (IH H) as (a & b & ->). now exists (String c a), b.
Qed.

Lemma contains_middle (k a b : string) : contains k (a ++ k ++ b) = true.
Proof.
  apply contains_app_r. rewrite contains_unfold, prefix_refl_app. reflexivity.
Qed.

Section KeepsWords.

Variable p : ascii -> bool.

Lemma lstrip_by_app_keep (a : string) (c : ascii) (x : string) :
  p c = false -> exists a', lstrip_by p (a ++ String c x) = a' ++ String c x.
Proof.
  intros Hc. induction a as [|d a IH]; cbn.
  - rewrite Hc. now exists "".
  - destruct (p d); [exact IH|]. now exists (String d a).
Qed.

Lemma is_empty_app (y z : string) : is_empty z = false -> is_empty (y ++ z) = false.
Proof. destruct y; [trivial|reflexivity]. Qed.

Lemma rstrip_by_app_nonblank (y z : string) :
  is_empty (rstrip_by p z) = false -> rstrip_by p (y ++ z) = y ++ rstrip_by p z.
Proof.
  intros Hz. induction y as [|c y IH]; [reflexivity|].
  change (String c y ++ z) with (String c (y ++ z)). cbn [rstrip_by]. cbv zeta.
  rewrite IH, (is_empty_app y _ Hz), andb_false_r. reflexivity.
Qed.

Lemma rstrip_by_app_fixed (k b : string) :
  rstrip_by p k = k -> rstrip_by p (k ++ b) = k ++ rstrip_by p b.
Proof.
  induction k as [|c k IH]; [reflexivity|].
  cbn [rstrip_by]. cbv zeta.
  destruct (p c && is_empty (rstrip_by p k)) eqn:E; [discriminate|].
  intros H. injection H as H. rewrite H in E.
  change (String c k ++ b) with (String c (k ++ b)). cbn [rstrip_by]. cbv zeta.
  rewrite (IH H).
  destruct k as [|d k].
  - cbn in E. rewrite andb_true_r in E. now rewrite E.
  - now rewrite andb_false_r.
Qed.

(** A word that neither starts nor ends with a character of the class
    survives the stripping of a text it occurs in. *)
Lemma contains_strip_by_keep (k s : string) (c : ascii) (x : string) :
  k = String c x -> p c = false -> rstrip_by p k = k ->
  contains k s = true -> contains k (strip_by p s) = true.
Proof.
  intros Hk Hc Hr H. destruct (contains_split _ _ H) as (a & b & ->).
  unfold strip_by.
  assert (E : exists a', lstrip_by p (a ++ k ++ b) = a' ++ k ++ b).
  { rewrite Hk. now apply (lstrip_by_app_keep a c (x ++ b)). }
  destruct E as [a' ->].
  assert (Hkb : rstrip_by p (k ++ b) = k ++ rstrip_by p b)
    by now apply rstrip_by_app_fixed.
  rewrite rstrip_by_app_nonblank; rewrite Hkb.
  - apply contains_middle.
  - now rewrite Hk.
Qed.

End KeepsWords.

Lemma casual_data_keyword_survives_strip (k s : string) :
  In k casual_data_keywords ->
  contains k s = true -> contains k (strip s) = true.
Proof.
  intros Hin. unfold casual_data_keywords in Hin.
  repeat (destruct Hin as [<-|Hin];
          [eapply contains_strip_by_keep; [reflexivity|reflexivity|reflexivity]|]).
  destruct Hin.
Qed.

(** X6. A question that holds one of the data-request keywords of the casual
    test is never handled as casual conversation; for every such keyword but
    "data" it is a follow-up request or a database query. *)
Theorem data_keyword_overrides_greeting (st : ConversationState) (q k : string) :
  In k casual_data_keywords ->
  contains k (lower q) = true ->
  classify st q <> Casual
  /\ (k <> "data" -> classify st q = FollowUp \/ classify st q = DatabaseQuery).
Proof.
  intros Hin Hk.
  assert (Hc : _is_casual_conversation q = false).
  { unfold _is_casual_conversation. cbv zeta.
    assert (G : contains_any casual_data_keywords (strip (lower q)) = true).
    { apply existsb_exists. exists k. split; [exact Hin|].
      now apply casual_data_keyword_survives_strip. }
    rewrite G. cbn [negb].
    replace (existsb _ casual_patterns) with false; [apply andb_false_r|].
    symmetry. induction casual_patterns as [|x l IH]; [reflexivity|].
    cbn [existsb]. now rewrite andb_false_r, IH. }
  unfold classify. rewrite Hc. split.
  - destruct (_is_followup_request q); [discriminate|].
    destruct (_needs_database_query st q); discriminate.
  - intros Hne. destruct (_is_followup_request q); [now left|]. right.
    rewrite needs_database_query_stateless.
    replace (contains_any data_keywords (lower q)) with true; [reflexivity|].
    symmetry. apply existsb_exists. exists k. split; [|exact Hk].
    unfold casual_data_keywords in Hin. unfold data_keywords.
    repeat (destruct Hin as [<-|Hin];
            [first [congruence | repeat (first [left; reflexivity | right])]|]).
    destruct Hin.
Qed.

Lemma data_keyword_overrides_greeting_witness :
  In "properties" casual_data_keywords
  /\ contains "properties" (lower "hi, show Properties") = true
  /\ classify init_state "hi, show Properties" <> Casual
  /\ ("properties" <> "data" ->
      classify init_state "hi, show Properties" = FollowUp
      \/ classify init_state "hi, show Properties" = DatabaseQuery).
Proof.
  assert (Hin : In "properties" casual_data_keywords)
    by (unfold casual_data_keywords; repeat (first [left; reflexivity | right])).
  assert (Hk : contains "properties" (lower "hi, show Properties") = true)
    by (vm_compute; reflexivity).
  exact (conj Hin (conj Hk
           (data_keyword_overrides_greeting init_state "hi, show Properties" "properties"
              Hin Hk))).
Defined.

(** ** SQL Resolver *)

Lemma last_n_app_long {A} (n : nat) (old recent : list A) :
  n <= List.length recent -> last_n n (old ++ recent)%list = last_n n recent.
Proof.
  intros Hn. unfold last_n. rewrite length_app, skipn_app.
  rewrite skipn_all2 by lia. cbn [app]. f_equal. lia.
Qed.

Lemma last_n_length {A} (n : nat) (l : list A) : List.length (last_n n l) <= n.
Proof. unfold last_n. rewrite length_skipn. lia. Qed.

(** X7. The resolver looks at the last five memory entries only: entries
    older than that change neither the repeat test nor the request. *)
Theorem resolve_reads_last_five_entries
    (old recent : list ConversationTurn) (result : option DataFrame)
    (sql asked : option string) (question : string) :
  5 <= List.length recent ->
  resolve {| conversation_memory := old ++ recent; last_query_result := result;
             last_sql_query := sql; last_question := asked |} question
  = resolve {| conversation_memory := recent; last_query_result := result;
               last_sql_query := sql; last_question := asked |} question.
Proof.
  intros H. unfold resolve, is_edited_query, build_delegation.
  cbn [conversation_memory last_sql_query].
  rewrite !last_n_app_long by lia. rewrite length_app.
  replace (Nat.ltb 1 (List.length old + List.length recent)) with true
    by (symmetry; apply Nat.ltb_lt; lia).
  replace (Nat.ltb 1 (List.length recent)) with true
    by (symmetry; apply Nat.ltb_lt; lia).
  reflexivity.
Qed.

Lemma take_length (n : nat) (s : string) : String.length (take n s) <= n.
Proof.
  revert s. induction n as [|n IH]; intros [|c s]; cbn; try lia.
  specialize (IH s). lia.
Qed.

(** X8. The conversation context of a request has at most four entries, each
    cut to at most 100 characters, and is empty unless the memory holds more
    than one entry. *)
Theorem delegation_context_is_bounded (st : ConversationState) (question : string) :
  List.length (dr_conversation_context (build_delegation st question)) <= 4
  /\ Forall (fun entry => String.length (snd entry) <= 100)
            (dr_conversation_context (build_delegation st question))
  /\ (List.length (conversation_memory st) <= 1 ->
      dr_conversation_context (build_delegation st question) = []).
Proof.
  unfold build_delegation. cbn [dr_conversation_context].
  destruct (Nat.ltb 1 (List.length (conversation_memory st))) eqn:E.
  - repeat split.
    + rewrite length_map. apply last_n_length.
    + apply Forall_forall. intros [r c] Hin. apply in_map_iff in Hin.
      destruct Hin as (msg & <- & _). cbn [snd]. apply take_length.
    + intros H. apply Nat.ltb_lt in E. lia.
  - repeat split; cbn; [lia|constructor].
Qed.

Lemma before_order_by_prefix (s : string) : exists t, s = before_order_by s ++ t.
Proof.
  induction s as [|c r [t IH]]; [now exists ""|].
  cbn [before_order_by].
  destruct (String.prefix "order by" (lower (String c r))).
  - now exists (String c r).
  - exists t. cbn. now rewrite <- IH.
Qed.

Lemma before_order_by_has_none (s : string) :
  contains "order by" (lower (before_order_by s)) = false.
Proof.
  induction s as [|c r IH]; [reflexivity|].
  cbn [before_order_by].
  destruct (String.prefix "order by" (lower (String c r))) eqn:E; [reflexivity|].
  change (lower (String c (before_order_by r)))
    with (String (lower_ascii c) (lower (before_order_by r))).
  rewrite contains_unfold, IH, orb_false_r.
  destruct (String.prefix "order by" (String (lower_ascii c) (lower (before_order_by r))))
    eqn:P; [|reflexivity].
  destruct (before_order_by_prefix r) as [t Ht].
  apply (prefix_app _ _ (lower t)) in P.
  change (String (lower_ascii c) (lower (before_order_by r)) ++ lower t)
    with (String (lower_ascii c) (lower (before_order_by r) ++ lower t)) in P.
  unfold lower in P. rewrite <- map_string_app, <- Ht in P.
  change (String (lower_ascii c) (map_string lower_ascii r))
    with (lower (String c r)) in P. congruence.
Qed.

Lemma before_order_by_absent (s : string) :
  contains "order by" (lower s) = false -> before_order_by s = s.
Proof.
  induction s as [|c r IH]; [reflexivity|].
  change (lower (String c r)) with (String (lower_ascii c) (lower r)).
  rewrite contains_unfold. intros H. apply orb_false_iff in H. destruct H as [Hp Hr].
  cbn [before_order_by].
  change (lower (String c r)) with (String (lower_ascii c) (lower r)).
  rewrite Hp, (IH Hr). reflexivity.
Qed.

Lemma append_empty_r (s : string) : s ++ "" = s.
Proof. induction s as [|c s IH]; cbn; [reflexivity|now rewrite IH]. Qed.

Lemma append_assoc_l (a b c : string) : (a ++ b) ++ c = a ++ b ++ c.
Proof. induction a as [|x a IH]; cbn; [reflexivity|now rewrite IH]. Qed.

Lemma base_query_has_no_order_by (last : string) :
  contains "order by" (lower (base_query last)) = false.
Proof.
  unfold base_query.
  destruct (contains "order by" (lower last)) eqn:Hlast; [|exact Hlast].
  destruct (contains "order by" (lower (strip (before_order_by last)))) eqn:E;
    [|reflexivity].
  destruct (strip_by_inside is_space (before_order_by last)) as (a & b & Hs).
  pose proof (before_order_by_has_none last) as Hn.
  rewrite Hs in Hn. unfold lower in Hn. rewrite !map_string_app in Hn.
  unfold strip, lower in E. now rewrite (contains_inside _ _ _ _ E) in Hn.
Qed.

Lemma base_query_inside (last : string) : exists a b, last = a ++ base_query last ++ b.
Proof.
  unfold base_query. destruct (contains "order by" (lower last)).
  - destruct (before_order_by_prefix last) as [t Ht].
    destruct (strip_by_inside is_space (before_order_by last)) as (a & b & Hs).
    exists a, (b ++ t). rewrite Ht at 1. rewrite Hs at 1.
    unfold strip. now rewrite !append_assoc_l.
  - exists "", "". cbn. now rewrite append_empty_r.
Qed.

(** X9. When a request carries a modification bundle, the previous query in
    it is the stored [last_sql_query]; the base query holds no ORDER BY in
    any letter case, is a piece of the stored query, and is the stored query
    itself, blanks and all, when that has no ORDER BY. *)
Theorem delegation_base_query_has_no_order_by
    (st : ConversationState) (question previous base : string) :
  dr_previous_context (build_delegation st question) = Some (previous, base) ->
  last_sql_query st = Some previous
  /\ contains "order by" (lower base) = false
  /\ (exists a b, previous = a ++ base ++ b)
  /\ (contains "order by" (lower previous) = false -> base = previous).
Proof.
  unfold build_delegation. cbn [dr_previous_context].
  destruct (last_sql_query st) as [last|]; [|discriminate].
  destruct (negb (is_empty last) && is_modification_request question); [|discriminate].
  intros H. inversion H; subst. split; [reflexivity|].
  split; [apply base_query_has_no_order_by|].
  split; [apply base_query_inside|].
  intros Hp. unfold base_query. now rewrite Hp.
Qed.

Lemma delegation_base_query_witness :
  dr_previous_context
    (build_delegation
       {| conversation_memory := []; last_query_result := None;
          last_sql_query := Some "SELECT * FROM DimAsset Order By City";
          last_question := None |}
       "sort by price")
  = Some ("SELECT * FROM DimAsset Order By City", "SELECT * FROM DimAsset")
  /\ contains "order by" (lower "SELECT * FROM DimAsset") = false.
Proof.
  assert (H : dr_previous_context
                (build_delegation
                   {| conversation_memory := []; last_query_result := None;
                      last_sql_query := Some "SELECT * FROM DimAsset Order By City";
                      last_question := None |}
                   "sort by price")
              = Some ("SELECT * FROM DimAsset Order By City", "SELECT * FROM DimAsset"))
    by (vm_compute; reflexivity).
  exact (conj H (proj1 (proj2 (delegation_base_query_has_no_order_by _ _ _ _ H)))).
Defined.

Lemma resolve_reads_last_five_entries_witness :
  5 <= List.length (repeat {| role := user; content := "list assets" |} 5)
  /\ resolve {| conversation_memory :=
                  [ {| role := user; content := "show properties" |} ]
                  ++ repeat {| role := user; content := "list assets" |} 5;
                last_query_result := None; last_sql_query := None;
                last_question := None |} "show properties"
     = resolve {| conversation_memory := repeat {| role := user; content := "list assets" |} 5;
                  last_query_result := None; last_sql_query := None;
                  last_question := None |} "show properties".
Proof.
  assert (H : 5 <= List.length (repeat {| role := user; content := "list assets" |} 5))
    by (cbn; lia).
  exact (conj H (resolve_reads_last_five_entries
                   [ {| role := user; content := "show properties" |} ]
                   (repeat {| role := user; content := "list assets" |} 5)
                   None None None "show properties" H)).
Defined.

(** ** Template limits *)

Lemma int_of_digits_pos (u : Decimal.uint) : forall p,
  int_of_digits (Npos p) (NilEmpty.string_of_uint u) = Npos (Pos.of_uint_acc u p).
Proof.
  induction u; intros p; cbn [NilEmpty.string_of_uint int_of_digits Pos.of_uint_acc];
    [reflexivity|..];
    rewrite <- IHu; f_equal; vm_compute digit_value; lia.
Qed.

Lemma int_of_digits_uint (u : Decimal.uint) :
  int_of_digits 0 (NilEmpty.string_of_uint u) = N.of_uint u.
Proof.
  induction u; cbn [NilEmpty.string_of_uint int_of_digits];
    [reflexivity|exact IHu|..]; apply int_of_digits_pos.
Qed.

(** [int(str(n)) = n] *)
Lemma int_of_digits_str_of_N (n : N) : int_of_digits 0 (str_of_N n) = n.
Proof.
  unfold str_of_N, NilZero.string_of_uint.
  rewrite <- (DecimalN.Unsigned.of_to n) at 2.
  destruct (N.to_uint n); try apply int_of_digits_uint. reflexivity.
Qed.

Lemma digits_of_uint (u : Decimal.uint) :
  span_len is_digit (NilEmpty.string_of_uint u)
  = String.length (NilEmpty.string_of_uint u).
Proof. induction u; cbn; [reflexivity|..]; now rewrite IHu. Qed.

(** [str(n)] is a non-empty run of digits. *)
Lemma str_of_N_digits (n : N) :
  span_len is_digit (str_of_N n) = String.length (str_of_N n)
  /\ exists c x, str_of_N n = String c x /\ is_digit c = true.
Proof.
  unfold str_of_N, NilZero.string_of_uint.
  destruct (N.to_uint n) eqn:E; try (split; [apply digits_of_uint|]);
    cbn; eauto.
Qed.

Lemma sub_top_limit_skip (s : string) : forall k,
  sub_top_limit k s = sub_top_limit 0 (drop k s).
Proof.
  induction s as [|c r IH]; intros [|k]; try reflexivity.
  cbn [sub_top_limit drop]. apply IH.
Qed.

Lemma sub_top_limit_copy (c : ascii) (r : string) :
  match_top_limit (String c r) = None ->
  sub_top_limit 0 (String c r) = String c (sub_top_limit 0 r).
Proof. intros H. cbn [sub_top_limit]. now rewrite H. Qed.

Lemma sub_top_limit_hit (c : ascii) (r : string) (n : nat) :
  match_top_limit (String c r) = Some n ->
  sub_top_limit 0 (String c r) = sub_top_limit 0 (drop (n - 1) r).
Proof. intros H. cbn [sub_top_limit]. rewrite H. apply sub_top_limit_skip. Qed.

Lemma digit_is_not_space (c : ascii) : is_digit c = true -> is_space c = false.
Proof.
  destruct c as [[] [] [] [] [] [] [] []]; intros H; try reflexivity;
    vm_compute in H; discriminate.
Qed.

Lemma span_len_digits_app (d rest : string) (c : ascii) (x : string) :
  span_len is_digit d = String.length d ->
  rest = String c x -> is_digit c = false ->
  span_len is_digit (d ++ rest) = String.length d.
Proof.
  intros Hd -> Hc. induction d as [|a d IH]; cbn in *.
  - now rewrite Hc.
  - destruct (is_digit a); [|discriminate]. f_equal. apply IH. lia.
Qed.

Lemma drop_app_plus (d rest : string) (k : nat) :
  drop (String.length d + k) (d ++ rest) = drop k rest.
Proof. induction d as [|a d IH]; [reflexivity|exact IH]. Qed.

Lemma drop_app_length (d rest : string) : drop (String.length d) (d ++ rest) = rest.
Proof. induction d as [|a d IH]; [reflexivity|exact IH]. Qed.

(** The clause of a text that starts with SELECT TOP and a number goes away
    together with the blanks behind the number. *)
Lemma select_top_clause_removed (d rest : string) (c0 : ascii) (x0 : string)
    (c1 : ascii) (x1 : string) :
  span_len is_digit d = String.length d ->
  d = String c0 x0 -> is_digit c0 = true ->
  rest = String c1 x1 -> is_digit c1 = false ->
  sub_top_limit 0 ("SELECT TOP " ++ d ++ rest)
  = "SELECT " ++ sub_top_limit 0 (drop (span_len is_space rest) rest).
Proof.
  intros Hd Hd0 Hc0 Hr Hc1.
  change ("SELECT TOP " ++ d ++ rest)
    with ("SELECT " ++ String "T" (String "O" (String "P" (String " " (d ++ rest))))).
  cbn [append].
  do 7 (rewrite sub_top_limit_copy by reflexivity).
  do 7 f_equal.
  assert (Hm : match_top_limit (String "T" (String "O" (String "P" (String " " (d ++ rest)))))
               = Some (3 + 1 + String.length d + span_len is_space rest)).
  { unfold match_top_limit. cbv zeta.
    replace (Ascii.eqb (lower_ascii "T") "t" && Ascii.eqb (lower_ascii "O") "o"
             && Ascii.eqb (lower_ascii "P") "p") with true by reflexivity.
    assert (Hw : span_len is_space (String " " (d ++ rest)) = 1).
    { cbn [span_len]. replace (is_space " ") with true by reflexivity.
      rewrite Hd0. cbn [append span_len]. now rewrite (digit_is_not_space _ Hc0). }
    rewrite Hw. cbn [drop].
    rewrite (span_len_digits_app d rest c1 x1 Hd Hr Hc1).
    rewrite drop_app_length.
    replace (Nat.leb 1 (String.length d)) with true
      by (rewrite Hd0; reflexivity).
    reflexivity. }
  rewrite (sub_top_limit_hit _ _ _ Hm).
  replace (3 + 1 + String.length d + span_len is_space rest - 1)
    with (3 + (String.length d + span_len is_space rest)) by lia.
  cbn [drop Nat.add]. now rewrite drop_app_plus.
Qed.

(** X10. Whatever the limit, the follow-up editor turns the top-performing
    query into one and the same query, which has no row-limiting clause. *)
Theorem top_performing_query_expands_to_one_query (n : N) :
  _remove_query_limits (sql_top_performing (str_of_N n))
  = "SELECT a.AssetName,
                        a.PropertyType,
                        a.City,
                        a.State,
                        SUM(ao.NetOperatingIncome) as TotalNOI,
                        SUM(ao.TotalRevenue) as TotalRevenue,
                        AVG(ao.PhysicalOccupancy) as AvgOccupancy
                    FROM FactAssetOperations ao
                    JOIN DimAsset a ON ao.AssetID = a.AssetID
                    GROUP BY a.AssetName, a.PropertyType, a.City, a.State
                    ORDER BY TotalNOI DESC"
  /\ has_top_limit (_remove_query_limits (sql_top_performing (str_of_N n))) = false.
Proof.
  assert (E : _remove_query_limits (sql_top_performing (str_of_N n))
              = _remove_query_limits (sql_top_performing "5")).
  { destruct (str_of_N_digits n) as (Hd & c0 & x0 & Hd0 & Hc0).
    unfold _remove_query_limits, sql_top_performing. f_equal.
    erewrite (select_top_clause_removed (str_of_N n));
      [|exact Hd|exact Hd0|exact Hc0|reflexivity|reflexivity].
    erewrite (select_top_clause_removed "5"); reflexivity. }
  rewrite E. split; vm_compute; reflexivity.
Qed.

(** X11. For an ASCII question that holds "top" and "performing", the canned
    query carries the first number of the question as its limit when that is
    the decimal numeral of n and has at most 4300 digits; a numeral of more
    digits makes the template chain end in an exception; and the limit is 5
    when the question has no digit. *)
Theorem top_performing_limit_is_the_first_number (question : string) :
  is_ascii question = true ->
  contains "top" (lower question) = true ->
  contains "performing" (lower question) = true ->
  (forall n, first_digits question = Some (str_of_N n) ->
             String.length (str_of_N n) <= max_str_digits ->
             match_template question = Canned (sql_top_performing (str_of_N n)))
  /\ (forall n, first_digits question = Some (str_of_N n) ->
                max_str_digits < String.length (str_of_N n) ->
                match_template question = TemplateError)
  /\ (first_digits question = None ->
      match_template question = Canned (sql_top_performing "5")).
Proof.
  intros _ Ht Hp. unfold match_template. cbv zeta. rewrite Ht, Hp. cbn [andb].
  split; [|split].
  - intros n -> Hlen. unfold int_of_text.
    replace (Nat.ltb max_str_digits (String.length (str_of_N n))) with false
      by (symmetry; apply Nat.ltb_ge; exact Hlen).
    now rewrite int_of_digits_str_of_N.
  - intros n -> Hlen. unfold int_of_text.
    replace (Nat.ltb max_str_digits (String.length (str_of_N n))) with true
      by (symmetry; apply Nat.ltb_lt; exact Hlen).
    reflexivity.
  - intros ->. reflexivity.
Qed.

Lemma top_performing_limit_witness :
  is_ascii "Top 12 performing assets in 2023" = true
  /\ contains "top" (lower "Top 12 performing assets in 2023") = true
  /\ contains "performing" (lower "Top 12 performing assets in 2023") = true
  /\ first_digits "Top 12 performing assets in 2023" = Some (str_of_N 12)
  /\ String.length (str_of_N 12) <= max_str_digits
  /\ match_template "Top 12 performing assets in 2023"
     = Canned (sql_top_performing (str_of_N 12)).
Proof.
  assert (Ha : is_ascii "Top 12 performing assets in 2023" = true)
    by (vm_compute; reflexivity).
  assert (Ht : contains "top" (lower "Top 12 performing assets in 2023") = true)
    by (vm_compute; reflexivity).
  assert (Hp : contains "performing" (lower "Top 12 performing assets in 2023") = true)
    by (vm_compute; reflexivity).
  assert (Hf : first_digits "Top 12 performing assets in 2023" = Some (str_of_N 12))
    by (vm_compute; reflexivity).
  assert (Hl : String.length (str_of_N 12) <= max_str_digits)
    by (apply Nat.leb_le; vm_compute; reflexivity).
  exact (conj Ha (conj Ht (conj Hp (conj Hf (conj Hl
           (proj1 (top_performing_limit_is_the_first_number _ Ha Ht Hp) 12%N Hf Hl)))))).
Defined.


(** ** Query Orchestrator: what every turn does *)

Ltac shape_events :=
  first [ left; reflexivity
        | right; left; reflexivity
        | right; right; left; reflexivity
        | right; right; right; eexists; left; reflexivity
        | right; right; right; eexists; right; reflexivity ].

Ltac shape_envelope :=
  first [ right; eexists; reflexivity
        | left; split; [reflexivity|]; split; [reflexivity|]; split; [reflexivity|];
          do 3 eexists; repeat (split; [reflexivity|]); reflexivity ].

Ltac shape_memory :=
  first [ exists []; split; [symmetry; apply app_nil_r|left; reflexivity]
        | eexists; split; [reflexivity|right; eexists; reflexivity] ].

Ltac shape_stored :=
  first [ left; split; reflexivity
        | right; do 2 eexists; split; [cbn [In]; right; left; reflexivity|];
          split; reflexivity ].

Ltac shape_done :=
  unfold turn_shape; cbv beta iota;
  split; [shape_envelope|]; split; [reflexivity|]; split; [shape_memory|];
  split; [shape_stored|shape_events].

Lemma followup_shape (st1 : ConversationState) (w : World) (cq : string) :
  turn_shape st1 cq (_handle_followup_request st1 w cq).
Proof.
  unfold _handle_followup_request.
  destruct (last_sql_query st1) as [last|] eqn:Hl; [|shape_done].
  destruct (is_empty last); [shape_done|].
  destruct (negb (db_connect w)); [shape_done|].
  destruct (db_execute_query w (_remove_query_limits last)); cbv zeta; shape_done.
Qed.

Lemma casual_shape (CR : list (string * string)) (st1 : ConversationState) (cq : string) :
  turn_shape st1 cq (_handle_casual_conversation CR st1 cq).
Proof. unfold _handle_casual_conversation. cbv zeta. shape_done. Qed.

Lemma general_shape (st1 : ConversationState) (w : World) (cq : string) :
  turn_shape st1 cq (_handle_general_question st1 w cq).
Proof.
  unfold _handle_general_question.
  destruct (llm_general_answer w cq); shape_done.
Qed.

Lemma database_query_shape (st1 : ConversationState) (w : World) (cq : string) :
  turn_shape st1 cq (_handle_database_query st1 w cq).
Proof.
  unfold _handle_database_query. cbv zeta.
  destruct (negb (db_connect w)); [shape_done|].
  destruct (_generate_intelligent_sql st1 w cq) as [sql|]; [|shape_done].
  destruct (is_empty sql || contains "not possible" (lower sql)); [shape_done|].
  destruct (db_execute_query w (_clean_sql_query sql)) as [df| |e]; [|shape_done..].
  unfold df_len. destruct (rows df) as [|row more] eqn:E.
  - cbn [List.length Nat.eqb Nat.ltb Nat.leb]. shape_done.
  - cbn [List.length Nat.eqb]. unfold turn_shape; cbv beta iota.
    split; [|split; [reflexivity|]; split; [shape_memory|]; split;
             [shape_stored|shape_events]].
    left. split; [reflexivity|]. split; [reflexivity|]. split; [reflexivity|].
    do 3 eexists. split; [reflexivity|]. split; [reflexivity|]. split; [reflexivity|].
    unfold df_len. now rewrite E.
Qed.

Section EveryTurn.

Variable CR : list (string * string).

Lemma chat_shape (st : ConversationState) (w : World) (q : string) :
  turn_shape (record_question st q) (_correct_spelling q) (chat CR st w q).
Proof.
  unfold chat. destruct (classify _ _).
  - apply followup_shape.
  - apply casual_shape.
  - apply database_query_shape.
  - apply general_shape.
Qed.

(** X12. Every turn returns either a complete answer (success, no error, the
    corrected question echoed, SQL text, data, insight, and a row count that
    is the number of rows of the data) or a bare failure that carries only an
    error message. *)
Theorem chat_envelope_is_complete_or_bare_failure
    (st : ConversationState) (w : World) (q : string) :
  (success (fst (fst (chat CR st w q))) = true
   /\ error (fst (fst (chat CR st w q))) = None
   /\ question (fst (fst (chat CR st w q))) = Some (_correct_spelling q)
   /\ exists sql df text,
        sql_query (fst (fst (chat CR st w q))) = Some sql
        /\ data (fst (fst (chat CR st w q))) = Some df
        /\ insights (fst (fst (chat CR st w q))) = Some text
        /\ row_count (fst (fst (chat CR st w q))) = Some (df_len df))
  \/ exists msg, fst (fst (chat CR st w q)) = failure msg.
Proof.
  pose proof (chat_shape st w q) as H. unfold turn_shape in H.
  destruct (chat CR st w q) as [[r st'] evs]. cbn [fst snd]. tauto.
Qed.

Lemma chat_records_every_question_aux (st : ConversationState) (w : World) (q : string) :
  exists extra,
    conversation_memory (snd (fst (chat CR st w q)))
    = (conversation_memory st
       ++ {| role := user; content := _correct_spelling q |} :: extra)%list
    /\ (extra = [] \/ exists text, extra = [ {| role := assistant; content := text |} ]).
Proof.
  pose proof (chat_shape st w q) as H. unfold turn_shape in H.
  destruct (chat CR st w q) as [[r st'] evs]. cbn [fst snd].
  destruct H as (_ & _ & (extra & Hm & Hx) & _).
  exists extra. split; [|exact Hx]. rewrite Hm. cbn. now rewrite <- app_assoc.
Qed.

(** X13. After every turn [last_question] is the raw question of that turn, and
    the memory is the old memory followed by the corrected question as a user
    entry and at most one assistant entry. *)
Theorem chat_records_every_question (st : ConversationState) (w : World) (q : string) :
  last_question (snd (fst (chat CR st w q))) = Some q
  /\ exists extra,
       conversation_memory (snd (fst (chat CR st w q)))
       = (conversation_memory st
          ++ {| role := user; content := _correct_spelling q |} :: extra)%list
       /\ (extra = [] \/ exists text, extra = [ {| role := assistant; content := text |} ]).
Proof.
  pose proof (chat_shape st w q) as H. unfold turn_shape in H.
  destruct (chat CR st w q) as [[r st'] evs]. cbn [fst snd].
  destruct H as (_ & Hq & (extra & Hm & Hx) & _). split; [exact Hq|].
  exists extra. split; [|exact Hx]. rewrite Hm. cbn. now rewrite <- app_assoc.
Qed.

(** X14. A turn makes no database call, or one connect, or a connect followed
    by exactly one query and possibly a close; it never runs a query on a
    connection it could not open and never runs two. *)
Theorem chat_database_calls (st : ConversationState) (w : World) (q : string) :
  snd (chat CR st w q) = []
  \/ snd (chat CR st w q) = [Connect false]
  \/ snd (chat CR st w q) = [Connect true]
  \/ exists sql, snd (chat CR st w q) = [Connect true; Execute sql]
                 \/ snd (chat CR st w q) = [Connect true; Execute sql; Close].
Proof.
  pose proof (chat_shape st w q) as H. unfold turn_shape in H.
  destruct (chat CR st w q) as [[r st'] evs]. cbn [fst snd]. tauto.
Qed.

Lemma chat_stored_query (st : ConversationState) (w : World) (q : string) :
  (last_sql_query (snd (fst (chat CR st w q))) = last_sql_query st
   /\ last_query_result (snd (fst (chat CR st w q))) = last_query_result st)
  \/ exists sql df,
       In (Execute sql) (snd (chat CR st w q))
       /\ last_sql_query (snd (fst (chat CR st w q))) = Some sql
       /\ last_query_result (snd (fst (chat CR st w q))) = Some df.
Proof.
  pose proof (chat_shape st w q) as H. unfold turn_shape in H.
  destruct (chat CR st w q) as [[r st'] evs]. cbn [fst snd].
  destruct H as (_ & _ & _ & H & _). exact H.
Qed.

(** A property of the state that every turn keeps holds throughout a session,
    and what it gives for the records of the turns holds of all of them. *)
Lemma run_invariant (P : ConversationState -> Prop) (Q : TurnRecord -> Prop) :
  (forall st w q, P st ->
     P (snd (fst (chat CR st w q)))
     /\ Q {| turn_intent := intent_of st q;
             turn_response := fst (fst (chat CR st w q));
             turn_events := snd (chat CR st w q) |}) ->
  forall turns st, P st ->
    P (fst (run CR st turns)) /\ Forall Q (snd (run CR st turns)).
Proof.
  intros Hstep. induction turns as [|[w q] rest IH]; intros st HP.
  - cbn. split; [exact HP|constructor].
  - rewrite run_cons. cbn [fst snd]. destruct (Hstep st w q HP) as [HP' HQ].
    destruct (IH _ HP') as [Hend Hall]. split; [exact Hend|now constructor].
Qed.

(** X15. Throughout a session [last_query_result] is set exactly when
    [last_sql_query] is. *)
Theorem stored_result_goes_with_stored_query (turns : list (World * string)) :
  last_query_result (fst (run CR init_state turns)) = None
  <-> last_sql_query (fst (run CR init_state turns)) = None.
Proof.
  apply (run_invariant
           (fun st => last_query_result st = None <-> last_sql_query st = None)
           (fun _ => True)); [|cbn; tauto].
  intros st w q H. split; [|exact I].
  destruct (chat_stored_query st w q) as [[-> ->] | (sql & df & _ & -> & ->)];
    [exact H|]. split; discriminate.
Qed.

End EveryTurn.

(** ** Query Orchestrator: what is sent to the database *)

Lemma Subseq_no_char (c : ascii) (a b : string) :
  Subseq a b -> contains (String c "") b = false -> contains (String c "") a = false.
Proof.
  induction 1 as [|x a b Hs IH|x a b Hs IH]; intros H.
  - exact H.
  - rewrite contains_unfold in H. apply orb_false_iff in H. now apply IH.
  - rewrite contains_unfold in H. apply orb_false_iff in H. destruct H as [Hp Hr].
    rewrite (contains_unfold _ (String x a)), (IH Hr), orb_false_r.
    rewrite prefix_cons in Hp |- *.
    destruct (ascii_dec c x); [|reflexivity]. now rewrite prefix_empty in Hp |- *.
Qed.

(** The text has no statement terminator and no blank at either end. *)
Lemma single_statement_after_editing (last : string) :
  contains ";" last = false ->
  contains ";" (_remove_query_limits last) = false
  /\ strip (_remove_query_limits last) = _remove_query_limits last.
Proof.
  intros H. split; [|apply remove_query_limits_stripped].
  apply (Subseq_no_char ";" _ last); [apply remove_query_limits_Subseq|exact H].
Qed.

Ltac in_cases H :=
  cbn [snd In] in H;
  repeat (destruct H as [H|H];
          [try discriminate; try (inversion H; subst; eauto; fail)|]);
  try (destruct H; fail).

(** Where the query a handler executes comes from. *)
Lemma followup_executes (st1 : ConversationState) (w : World) (cq sql : string) :
  In (Execute sql) (snd (_handle_followup_request st1 w cq)) ->
  exists last, last_sql_query st1 = Some last /\ sql = _remove_query_limits last.
Proof.
  unfold _handle_followup_request.
  destruct (last_sql_query st1) as [last|]; [|intros []].
  destruct (is_empty last); [intros []|].
  destruct (negb (db_connect w)); [intros H; in_cases H|].
  destruct (db_execute_query w (_remove_query_limits last)); cbv zeta;
    intros H; in_cases H.
Qed.

Lemma database_query_executes (st1 : ConversationState) (w : World) (cq sql : string) :
  In (Execute sql) (snd (_handle_database_query st1 w cq)) ->
  exists generated, sql = _clean_sql_query generated.
Proof.
  unfold _handle_database_query. cbv zeta.
  destruct (negb (db_connect w)); [intros H; in_cases H|].
  destruct (_generate_intelligent_sql st1 w cq) as [g|]; [|intros H; in_cases H].
  destruct (is_empty g || contains "not possible" (lower g)); [intros H; in_cases H|].
  destruct (db_execute_query w (_clean_sql_query g)) as [df| |e];
    [destruct (Nat.eqb (df_len df) 0)|..]; intros H; in_cases H.
Qed.

Section Sessions.

Variable CR : list (string * string).

Lemma chat_executes (st : ConversationState) (w : World) (q sql : string) :
  In (Execute sql) (snd (chat CR st w q)) ->
  (exists generated, sql = _clean_sql_query generated)
  \/ exists last, last_sql_query st = Some last /\ sql = _remove_query_limits last.
Proof.
  unfold chat. destruct (classify _ _).
  - intros H. right. apply followup_executes in H. exact H.
  - intros [].
  - intros H. left. now apply database_query_executes in H.
  - unfold _handle_general_question. destruct (llm_general_answer _ _); intros [].
Qed.

(** X16. Throughout a session every query sent to the executor, and the
    stored [last_sql_query], is a single statement: it holds no statement
    terminator and has no blank at either end. *)
Theorem session_sql_is_a_single_statement (turns : list (World * string)) :
  (forall s, last_sql_query (fst (run CR init_state turns)) = Some s ->
             contains ";" s = false /\ strip s = s)
  /\ Forall (fun t => forall sql, In (Execute sql) (turn_events t) ->
                                  contains ";" sql = false /\ strip sql = sql)
            (snd (run CR init_state turns)).
Proof.
  apply (run_invariant CR
           (fun st => forall s, last_sql_query st = Some s ->
                                contains ";" s = false /\ strip s = s)
           (fun t => forall sql, In (Execute sql) (turn_events t) ->
                                 contains ";" sql = false /\ strip sql = sql));
    [|discriminate].
  intros st w q Hst.
  assert (Hex : forall sql, In (Execute sql) (snd (chat CR st w q)) ->
                            contains ";" sql = false /\ strip sql = sql).
  { intros sql Hin. destruct (chat_executes st w q sql Hin) as [[g ->] | (last & Hl & ->)].
    - split; [apply clean_sql_no_terminator|apply clean_sql_stripped].
    - apply single_statement_after_editing. destruct (Hst _ Hl) as [H _]. exact H. }
  split; [|exact Hex].
  intros s Hs.
  destruct (chat_stored_query CR st w q) as [[E _] | (sql & df & Hin & E & _)].
  - rewrite E in Hs. exact (Hst _ Hs).
  - rewrite E in Hs. inversion Hs; subst. exact (Hex _ Hin).
Qed.

(** X17. The memory only grows: at the end of a session it is the memory of
    the start followed by at least one and at most two entries for each
    turn. *)
Theorem session_memory_only_grows (turns : list (World * string)) :
  forall st, exists added,
    conversation_memory (fst (run CR st turns))
    = (conversation_memory st ++ added)%list
    /\ List.length turns <= List.length added <= 2 * List.length turns.
Proof.
  induction turns as [|[w q] rest IH]; intros st.
  - exists []. cbn. rewrite app_nil_r. split; [reflexivity|lia].
  - rewrite run_cons. cbn [fst snd].
    destruct (chat_records_every_question_aux CR st w q) as (extra & Hm & Hx).
    destruct (IH (snd (fst (chat CR st w q)))) as (added & Ha & Hlen).
    exists ({| role := user; content := _correct_spelling q |} :: extra ++ added)%list.
    split.
    + rewrite Ha, Hm. rewrite <- app_assoc. reflexivity.
    + cbn [List.length]. rewrite length_app.
      destruct Hx as [-> | [text ->]]; cbn [List.length]; lia.
Qed.

End Sessions.

(** ** Query Orchestrator: failures and successes of a turn *)

Lemma prefix_refl (s : string) : String.prefix s s = true.
Proof. rewrite <- (append_empty_r s) at 2. apply prefix_refl_app. Qed.


Ltac in_pick H :=
  cbn [snd In] in H;
  repeat (destruct H as [H|H];
          [try discriminate; try (inversion H; subst; clear H)|]);
  try (destruct H; fail).

Section Paths.

Variable CR : list (string * string).

Lemma chat_by_intent (st : ConversationState) (w : World) (q : string) :
  chat CR st w q
  = match intent_of st q with
    | FollowUp => _handle_followup_request (record_question st q) w (_correct_spelling q)
    | Casual => _handle_casual_conversation CR (record_question st q) (_correct_spelling q)
    | DatabaseQuery => _handle_database_query (record_question st q) w (_correct_spelling q)
    | General => _handle_general_question (record_question st q) w (_correct_spelling q)
    end.
Proof. reflexivity. Qed.

(** X18. When the connection cannot be opened, a database-query turn and a
    follow-up turn with a stored query report "Database connection failed",
    run no query and leave the stored query as it was. *)
Theorem connection_failure_is_reported (st : ConversationState) (w : World) (q : string) :
  db_connect w = false ->
  intent_of st q = DatabaseQuery
  \/ (intent_of st q = FollowUp /\ truthy (last_sql_query st) = true) ->
  chat CR st w q
  = (failure "Database connection failed", record_question st q, [Connect false]).
Proof.
  intros Hc H. rewrite chat_by_intent. destruct H as [-> | [-> Ht]].
  - unfold _handle_database_query. now rewrite Hc.
  - unfold _handle_followup_request. cbn [record_question last_sql_query].
    unfold truthy in Ht. destruct (last_sql_query st) as [last|]; [|discriminate].
    destruct (is_empty last); [discriminate|]. now rewrite Hc.
Qed.

(** X19. When the generative call fails, or its text is empty or holds "not
    possible" in any letter case, a database-query turn reports that no valid
    SQL could be generated and runs no query. *)
Theorem unusable_generation_runs_no_query (st : ConversationState) (w : World) (q : string) :
  intent_of st q = DatabaseQuery ->
  db_connect w = true ->
  match llm_generate_sql w (build_delegation (record_question st q) (_correct_spelling q)) with
  | Failed _ => True
  | Text body => strip body = "" \/ contains "not possible" (lower (strip body)) = true
  end ->
  chat CR st w q
  = (failure "Could not generate a valid SQL query for this question. Try being more specific.",
     record_question st q, [Connect true]).
Proof.
  intros Hi Hc Hg. rewrite chat_by_intent, Hi.
  unfold _handle_database_query, _generate_intelligent_sql. cbv zeta.
  rewrite Hc, resolve_in_chat. cbn [negb].
  destruct (llm_generate_sql w _) as [body|e]; [|reflexivity].
  destruct Hg as [-> | ->]; [reflexivity|now rewrite orb_true_r].
Qed.

(** X20. When the executor raises on the query of a turn, the turn reports the
    exception text, closes the connection, and leaves the stored query and
    result as they were. *)
Theorem executor_exception_is_reported
    (st : ConversationState) (w : World) (q sql e : string) :
  In (Execute sql) (snd (chat CR st w q)) ->
  db_execute_query w sql = Raised e ->
  (fst (fst (chat CR st w q)) = failure ("Database query failed: " ++ e)
   \/ fst (fst (chat CR st w q)) = failure ("Follow-up request failed: " ++ e))
  /\ snd (fst (chat CR st w q)) = record_question st q
  /\ snd (chat CR st w q) = [Connect true; Execute sql; Close].
Proof.
  rewrite chat_by_intent. destruct (intent_of st q).
  - unfold _handle_followup_request.
    destruct (last_sql_query (record_question st q)) as [last|]; [|intros []].
    destruct (is_empty last); [intros []|].
    destruct (negb (db_connect w)); [intros H; in_cases H|].
    destruct (db_execute_query w (_remove_query_limits last)) eqn:Hx; cbv zeta;
      intros H Hr; in_pick H; rewrite Hx in Hr; inversion Hr; subst;
      cbn [fst snd]; auto.
  - intros [].
  - unfold _handle_database_query. cbv zeta.
    destruct (negb (db_connect w)); [intros H; in_cases H|].
    destruct (_generate_intelligent_sql _ w _) as [g|]; [|intros H; in_cases H].
    destruct (is_empty g || contains "not possible" (lower g)); [intros H; in_cases H|].
    destruct (db_execute_query w (_clean_sql_query g)) as [df| |e'] eqn:Hx;
      [destruct (Nat.eqb (df_len df) 0)|..];
      intros H Hr; in_pick H; rewrite Hx in Hr; inversion Hr; subst;
      cbn [fst snd]; auto.
  - unfold _handle_general_question. destruct (llm_general_answer _ _); intros [].
Qed.

(** X21. When the executor answers the query of a database-query turn with a
    frame, the turn succeeds whatever the insight call does, and stores the
    query.  With rows it stores and returns the frame, appends one assistant
    entry naming the row count and the question, and closes the connection;
    without rows it stores an empty frame without columns and appends no
    entry. *)
Theorem executed_query_updates_the_session
    (st : ConversationState) (w : World) (q sql : string) (df : DataFrame) :
  intent_of st q = DatabaseQuery ->
  In (Execute sql) (snd (chat CR st w q)) ->
  db_execute_query w sql = Rows df ->
  success (fst (fst (chat CR st w q))) = true
  /\ sql_query (fst (fst (chat CR st w q))) = Some sql
  /\ row_count (fst (fst (chat CR st w q))) = Some (df_len df)
  /\ last_sql_query (snd (fst (chat CR st w q))) = Some sql
  /\ (rows df <> [] ->
      data (fst (fst (chat CR st w q))) = Some df
      /\ last_query_result (snd (fst (chat CR st w q))) = Some df
      /\ conversation_memory (snd (fst (chat CR st w q)))
         = (conversation_memory st
            ++ [ {| role := user; content := _correct_spelling q |};
                 {| role := assistant;
                    content := "Query returned " ++ str_of_nat (df_len df)
                               ++ " results from " ++ _correct_spelling q |} ])%list
      /\ snd (chat CR st w q) = [Connect true; Execute sql; Close])
  /\ (rows df = [] ->
      data (fst (fst (chat CR st w q))) = Some empty_frame
      /\ last_query_result (snd (fst (chat CR st w q))) = Some empty_frame
      /\ conversation_memory (snd (fst (chat CR st w q)))
         = (conversation_memory st
            ++ [ {| role := user; content := _correct_spelling q |} ])%list).
Proof.
  intros Hi. rewrite chat_by_intent, Hi.
  unfold _handle_database_query. cbv zeta.
  destruct (negb (db_connect w)); [intros H; in_cases H|].
  destruct (_generate_intelligent_sql _ w _) as [g|]; [|intros H; in_cases H].
  destruct (is_empty g || contains "not possible" (lower g)); [intros H; in_cases H|].
  destruct (db_execute_query w (_clean_sql_query g)) as [df'| |e'] eqn:Hx;
    [|intros H Hr; in_pick H; rewrite Hx in Hr; discriminate..].
  unfold df_len. destruct (rows df') as [|row more] eqn:Hrows;
    cbn [List.length Nat.eqb]; intros H Hr; in_pick H;
    rewrite Hx in Hr; inversion Hr; subst; rewrite Hrows;
    cbn [fst snd success sql_query row_count data answer last_sql_query
         last_query_result conversation_memory record_question List.length Nat.ltb Nat.leb];
    (split; [reflexivity|]); (split; [reflexivity|]); (split; [reflexivity|]);
    (split; [reflexivity|]); split; intros Hcase; try congruence;
    repeat (split; [first [reflexivity | now rewrite <- app_assoc]|]);
    first [reflexivity | now rewrite <- app_assoc].
Qed.

(** X22. When the insight call fails on a result with rows, the insight of the
    envelope starts with the fixed sentence that names the row count and the
    columns. *)
Theorem insight_fallback_names_rows_and_columns
    (st : ConversationState) (w : World) (q sql e : string) (df : DataFrame) :
  intent_of st q = DatabaseQuery ->
  In (Execute sql) (snd (chat CR st w q)) ->
  db_execute_query w sql = Rows df ->
  rows df <> [] ->
  llm_business_insights w (_correct_spelling q) df = Failed e ->
  exists text,
    insights (fst (fst (chat CR st w q))) = Some text
    /\ String.prefix ("Query executed successfully and returned "
                      ++ str_of_nat (df_len df) ++ " results with columns: "
                      ++ join ", " (columns df)) text = true.
Proof.
  intros Hi. rewrite chat_by_intent, Hi.
  unfold _handle_database_query. cbv zeta.
  destruct (negb (db_connect w)); [intros H; in_cases H|].
  destruct (_generate_intelligent_sql _ w _) as [g|]; [|intros H; in_cases H].
  destruct (is_empty g || contains "not possible" (lower g)); [intros H; in_cases H|].
  destruct (db_execute_query w (_clean_sql_query g)) as [df'| |e'] eqn:Hx;
    [|intros H Hr; in_pick H; rewrite Hx in Hr; discriminate..].
  unfold _generate_business_insights, df_len.
  destruct (rows df') as [|row more] eqn:Hrows; cbn [List.length Nat.eqb];
    intros H Hr Hne Hf; in_pick H; rewrite Hx in Hr; inversion Hr; subst;
    [congruence|].
  rewrite Hf, Hrows. cbn [fst insights answer].
  destruct (contains "TOP " (upper (_clean_sql_query g)) && _);
    eexists; (split; [reflexivity|]).
  - apply prefix_refl_app.
  - apply prefix_refl.
Qed.


(** X24. A general question is answered with the stripped text of the
    generative call and the tag "general"; when the call fails the turn
    reports the exception text. *)
Theorem general_question_outcome (st : ConversationState) (w : World) (q : string) :
  intent_of st q = General ->
  match llm_general_answer w (_correct_spelling q) with
  | Text body =>
      fst (fst (chat CR st w q))
      = answer (_correct_spelling q) no_query_needed empty_frame (strip body) 0
               (Some "general")
  | Failed e =>
      fst (fst (chat CR st w q))
      = failure ("Could not process general question: " ++ e)
  end.
Proof.
  intros Hi. rewrite chat_by_intent, Hi. unfold _handle_general_question.
  destruct (llm_general_answer w (_correct_spelling q)); reflexivity.
Qed.

End Paths.

(** ** HTTP layer *)

Section EndpointFacts.

Variable CR : list (string * string).

(** X25. With an agent in place the response of the chat endpoint mirrors the
    envelope of the turn: same success flag, error, question, SQL text,
    insight and row count; on success the data is a list with one record per
    counted row.  No lookup of a missing key turns an answer into a server
    error. *)
Theorem chat_endpoint_mirrors_the_envelope
    (srv : Server) (agent : ConversationState) (w : World) (q : string) :
  chat_agent srv = Some agent ->
  cr_success (fst (fst (chat_endpoint CR srv w q))) = success (fst (fst (chat CR agent w q)))
  /\ cr_error (fst (fst (chat_endpoint CR srv w q))) = error (fst (fst (chat CR agent w q)))
  /\ cr_question (fst (fst (chat_endpoint CR srv w q)))
     = question (fst (fst (chat CR agent w q)))
  /\ cr_sql_query (fst (fst (chat_endpoint CR srv w q)))
     = sql_query (fst (fst (chat CR agent w q)))
  /\ cr_insights (fst (fst (chat_endpoint CR srv w q)))
     = insights (fst (fst (chat CR agent w q)))
  /\ cr_row_count (fst (fst (chat_endpoint CR srv w q)))
     = row_count (fst (fst (chat CR agent w q)))
  /\ (success (fst (fst (chat CR agent w q))) = true ->
      exists records,
        cr_data (fst (fst (chat_endpoint CR srv w q))) = Some records
        /\ cr_row_count (fst (fst (chat_endpoint CR srv w q)))
           = Some (List.length records))
  /\ chat_agent (snd (fst (chat_endpoint CR srv w q))) = Some (snd (fst (chat CR agent w q)))
  /\ snd (chat_endpoint CR srv w q) = snd (chat CR agent w q).
Proof.
  intros Ha. unfold chat_endpoint. rewrite Ha.
  pose proof (chat_shape CR agent w q) as H. unfold turn_shape in H.
  destruct (chat CR agent w q) as [[r agent'] evs]. cbn [fst snd].
  destruct H as ([(Hs & He & Hq & sql & df & text & Hsql & Hd & Hi & Hn) | [msg ->]] & _).
  - rewrite Hs, He, Hq, Hsql, Hd, Hi, Hn.
    cbn [fst snd cr_success cr_error cr_question cr_sql_query cr_insights cr_row_count
         cr_data chat_agent].
    repeat (split; [reflexivity|]). split; [|split; reflexivity].
    intros _. eexists. split; [reflexivity|]. f_equal.
    unfold df_len, to_records. destruct (rows df) as [|row more]; [reflexivity|].
    cbn [List.length Nat.ltb Nat.leb]. now rewrite length_map.
  - cbn [success failure fst snd cr_success cr_error cr_question cr_sql_query
         cr_insights cr_row_count cr_data chat_agent error question sql_query insights
         row_count].
    repeat (split; [reflexivity|]). split; [discriminate|split; reflexivity].
Qed.

(** X26. The results kept for download change exactly on a successful turn:
    a failed turn leaves them as they were, a successful one replaces them by
    the corrected question, the SQL text, the insight and the records of the
    turn, after which a download is no longer refused for want of data. *)
Theorem download_results_follow_the_last_success
    (srv : Server) (agent : ConversationState) (w : World) (q : string) :
  chat_agent srv = Some agent ->
  (success (fst (fst (chat CR agent w q))) = false ->
   last_query_results (snd (fst (chat_endpoint CR srv w q))) = last_query_results srv)
  /\ (success (fst (fst (chat CR agent w q))) = true ->
      lqr_data (last_query_results (snd (fst (chat_endpoint CR srv w q))))
      = cr_data (fst (fst (chat_endpoint CR srv w q)))
      /\ lqr_question (last_query_results (snd (fst (chat_endpoint CR srv w q))))
         = _correct_spelling q
      /\ Some (lqr_sql_query (last_query_results (snd (fst (chat_endpoint CR srv w q)))))
         = sql_query (fst (fst (chat CR agent w q)))
      /\ Some (lqr_insights (last_query_results (snd (fst (chat_endpoint CR srv w q)))))
         = insights (fst (fst (chat CR agent w q)))
      /\ download_refusal true (snd (fst (chat_endpoint CR srv w q))) = None).
Proof.
  intros Ha. unfold chat_endpoint. rewrite Ha.
  pose proof (chat_shape CR agent w q) as H. unfold turn_shape in H.
  destruct (chat CR agent w q) as [[r agent'] evs]. cbn [fst snd].
  destruct H as ([(Hs & He & Hq & sql & df & text & Hsql & Hd & Hi & Hn) | [msg ->]] & _).
  - rewrite Hs, Hq, Hsql, Hd, Hi, Hn. split; [discriminate|]. intros _.
    cbn [fst snd]. unfold download_refusal. cbn. repeat split.
  - cbn [success failure]. split; [|discriminate]. intros _. reflexivity.
Qed.

(** X27. A reset puts the agent back into its initial state, so that a
    follow-up request right after it fails for want of a previous query and
    makes no database call, but it keeps the results for download: a
    download that was served before the reset is served after it. *)
Theorem reset_forgets_the_query_but_not_the_download
    (srv : Server) (agent : ConversationState) (w : World) (q : string)
    (download_utils_available : bool) :
  chat_agent srv = Some agent ->
  intent_of init_state q = FollowUp ->
  fst (reset_conversation srv) = "Conversation memory reset successfully"
  /\ chat_agent (snd (reset_conversation srv)) = Some init_state
  /\ fst (fst (chat_endpoint CR (snd (reset_conversation srv)) w q))
     = error_response no_previous_query
  /\ snd (chat_endpoint CR (snd (reset_conversation srv)) w q) = []
  /\ download_refusal download_utils_available (snd (reset_conversation srv))
     = download_refusal download_utils_available srv.
Proof.
  intros Ha Hi. unfold reset_conversation. rewrite Ha. cbn [fst snd chat_agent].
  split; [reflexivity|]. split; [reflexivity|].
  unfold chat_endpoint. cbn [chat_agent].
  rewrite (chat_followup_without_query CR w (st := init_state) (q := q) eq_refl Hi).
  cbn [success failure fst snd error]. repeat split.
Qed.

End EndpointFacts.

(** ** The further properties on sample sessions *)

Import MoreSamples.

Lemma connection_failure_witness :
  db_connect offline = false
  /\ intent_of init_state "list assets" = DatabaseQuery
  /\ chat [] init_state offline "list assets"
     = (failure "Database connection failed", record_question init_state "list assets",
        [Connect false]).
Proof.
  assert (Hc : db_connect offline = false) by reflexivity.
  assert (Hi : intent_of init_state "list assets" = DatabaseQuery)
    by (vm_compute; reflexivity).
  exact (conj Hc (conj Hi
           (connection_failure_is_reported [] init_state offline "list assets" Hc
              (or_introl Hi)))).
Defined.

Lemma unusable_generation_witness :
  intent_of init_state "list assets" = DatabaseQuery
  /\ db_connect refusing = true
  /\ chat [] init_state refusing "list assets"
     = (failure "Could not generate a valid SQL query for this question. Try being more specific.",
        record_question init_state "list assets", [Connect true]).
Proof.
  assert (Hi : intent_of init_state "list assets" = DatabaseQuery)
    by (vm_compute; reflexivity).
  assert (Hc : db_connect refusing = true) by reflexivity.
  assert (Hg : match llm_generate_sql refusing
                       (build_delegation (record_question init_state "list assets")
                                         (_correct_spelling "list assets")) with
               | Failed _ => True
               | Text body =>
                   strip body = "" \/ contains "not possible" (lower (strip body)) = true
               end)
    by (right; vm_compute; reflexivity).
  exact (conj Hi (conj Hc
           (unusable_generation_runs_no_query [] init_state refusing "list assets"
              Hi Hc Hg))).
Defined.

Lemma executor_exception_witness :
  In (Execute "SELECT AssetName FROM DimAsset")
     (snd (chat [] init_state raising_executor "list assets"))
  /\ db_execute_query raising_executor "SELECT AssetName FROM DimAsset" = Raised "timeout"
  /\ snd (chat [] init_state raising_executor "list assets")
     = [Connect true; Execute "SELECT AssetName FROM DimAsset"; Close].
Proof.
  assert (Hin : In (Execute "SELECT AssetName FROM DimAsset")
                   (snd (chat [] init_state raising_executor "list assets")))
    by (vm_compute; right; left; reflexivity).
  assert (Hx : db_execute_query raising_executor "SELECT AssetName FROM DimAsset"
               = Raised "timeout") by reflexivity.
  exact (conj Hin (conj Hx
           (proj2 (proj2 (executor_exception_is_reported [] init_state raising_executor
                            "list assets" "SELECT AssetName FROM DimAsset" "timeout"
                            Hin Hx))))).
Defined.

Lemma executed_query_witness :
  intent_of init_state "list assets" = DatabaseQuery
  /\ In (Execute "SELECT AssetName FROM DimAsset")
        (snd (chat [] init_state healthy "list assets"))
  /\ db_execute_query healthy "SELECT AssetName FROM DimAsset" = Rows one_asset
  /\ success (fst (fst (chat [] init_state healthy "list assets"))) = true.
Proof.
  assert (Hi : intent_of init_state "list assets" = DatabaseQuery)
    by (vm_compute; reflexivity).
  assert (Hin : In (Execute "SELECT AssetName FROM DimAsset")
                   (snd (chat [] init_state healthy "list assets")))
    by (vm_compute; right; left; reflexivity).
  assert (Hx : db_execute_query healthy "SELECT AssetName FROM DimAsset" = Rows one_asset)
    by reflexivity.
  exact (conj Hi (conj Hin (conj Hx
           (proj1 (executed_query_updates_the_session [] init_state healthy "list assets"
                     "SELECT AssetName FROM DimAsset" one_asset Hi Hin Hx))))).
Defined.

Lemma insight_fallback_witness :
  intent_of init_state "list assets" = DatabaseQuery
  /\ In (Execute "SELECT AssetName FROM DimAsset")
        (snd (chat [] init_state mute "list assets"))
  /\ db_execute_query mute "SELECT AssetName FROM DimAsset" = Rows one_asset
  /\ rows one_asset <> []
  /\ llm_business_insights mute (_correct_spelling "list assets") one_asset
     = Failed "rate limit"
  /\ exists text,
       insights (fst (fst (chat [] init_state mute "list assets"))) = Some text
       /\ String.prefix ("Query executed successfully and returned "
                         ++ str_of_nat (df_len one_asset) ++ " results with columns: "
                         ++ join ", " (columns one_asset)) text = true.
Proof.
  assert (Hi : intent_of init_state "list assets" = DatabaseQuery)
    by (vm_compute; reflexivity).
  assert (Hin : In (Execute "SELECT AssetName FROM DimAsset")
                   (snd (chat [] init_state mute "list assets")))
    by (vm_compute; right; left; reflexivity).
  assert (Hx : db_execute_query mute "SELECT AssetName FROM DimAsset" = Rows one_asset)
    by reflexivity.
  assert (Hr : rows one_asset <> []) by discriminate.
  assert (Hf : llm_business_insights mute (_correct_spelling "list assets") one_asset
               = Failed "rate limit") by reflexivity.
  exact (conj Hi (conj Hin (conj Hx (conj Hr (conj Hf
           (insight_fallback_names_rows_and_columns [] init_state mute "list assets"
              "SELECT AssetName FROM DimAsset" "rate limit" one_asset
              Hi Hin Hx Hr Hf)))))).
Defined.


Lemma general_question_witness :
  intent_of init_state "why is the sky blue" = General
  /\ match llm_general_answer mute (_correct_spelling "why is the sky blue") with
     | Text body =>
         fst (fst (chat [] init_state mute "why is the sky blue"))
         = answer (_correct_spelling "why is the sky blue") no_query_needed empty_frame
                  (strip body) 0 (Some "general")
     | Failed e =>
         fst (fst (chat [] init_state mute "why is the sky blue"))
         = failure ("Could not process general question: " ++ e)
     end.
Proof.
  assert (Hi : intent_of init_state "why is the sky blue" = General)
    by (vm_compute; reflexivity).
  exact (conj Hi (general_question_outcome [] init_state mute "why is the sky blue" Hi)).
Defined.

Lemma chat_endpoint_witness :
  chat_agent fresh_server = Some init_state
  /\ cr_success (fst (fst (chat_endpoint [] fresh_server healthy "list assets")))
     = success (fst (fst (chat [] init_state healthy "list assets"))).
Proof.
  assert (Ha : chat_agent fresh_server = Some init_state) by reflexivity.
  exact (conj Ha
           (proj1 (chat_endpoint_mirrors_the_envelope [] fresh_server init_state healthy
                     "list assets" Ha))).
Defined.

Lemma download_results_witness :
  chat_agent fresh_server = Some init_state
  /\ success (fst (fst (chat [] init_state failing_executor "list assets"))) = false
  /\ last_query_results (snd (fst (chat_endpoint [] fresh_server failing_executor "list assets")))
     = last_query_results fresh_server.
Proof.
  assert (Ha : chat_agent fresh_server = Some init_state) by reflexivity.
  assert (Hs : success (fst (fst (chat [] init_state failing_executor "list assets"))) = false)
    by (vm_compute; reflexivity).
  exact (conj Ha (conj Hs
           (proj1 (download_results_follow_the_last_success [] fresh_server init_state
                     failing_executor "list assets" Ha) Hs))).
Defined.

Lemma reset_witness :
  chat_agent {| chat_agent := Some after_one_query; agent_error := None;
                last_query_results :=
                  {| lqr_data := Some (to_records one_asset); lqr_question := "list assets";
                     lqr_sql_query := "SELECT AssetName FROM DimAsset";
                     lqr_insights := "One asset is listed." |} |}
  = Some after_one_query
  /\ intent_of init_state "show all results" = FollowUp
  /\ fst (fst (chat_endpoint []
                 (snd (reset_conversation
                         {| chat_agent := Some after_one_query; agent_error := None;
                            last_query_results :=
                              {| lqr_data := Some (to_records one_asset);
                                 lqr_question := "list assets";
                                 lqr_sql_query := "SELECT AssetName FROM DimAsset";
                                 lqr_insights := "One asset is listed." |} |}))
                 healthy "show all results"))
     = error_response no_previous_query.
Proof.
  assert (Hi : intent_of init_state "show all results" = FollowUp)
    by (vm_compute; reflexivity).
  exact (conj eq_refl (conj Hi
           (proj1 (proj2 (proj2
              (reset_forgets_the_query_but_not_the_download []
                 {| chat_agent := Some after_one_query; agent_error := None;
                    last_query_results :=
                      {| lqr_data := Some (to_records one_asset);
                         lqr_question := "list assets";
                         lqr_sql_query := "SELECT AssetName FROM DimAsset";
                         lqr_insights := "One asset is listed." |} |}
                 after_one_query healthy "show all results" true eq_refl Hi)))))).
Defined.
